(** * The book resource: forms, models, DTOs and the five HTTP handlers

    A shallow embedding of [api/resource/book] (the struct declarations and
    [handler.go]) together with small models of the library functions the
    package calls: [time.Parse] / [Time.Format], the struct validator, the
    response writer of [net/http], and the repository the handlers talk to.

    Conventions.
    - A Go [string] is a sequence of bytes: Rocq's [string].
    - A pointer to a struct that is never nil where the package uses it
      ([*Form], [*Book], the elements of [Books]) is the struct itself.
    - A Go call returning [(T, error)] whose value is only meaningful when
      the error is nil is a [result T]; [time.Parse], whose value the
      package does use next to a non-nil error, returns a pair.
    - Integers ([int], [int64]) are [Z]; no operation here leaves their range. *)

From Stdlib Require Import ZArith List String Ascii Bool Lia.
Import ListNotations.

Local Open Scope string_scope.
Local Open Scope Z_scope.

(* ================================================================== *)
(** * Part I: definitions *)
(* ================================================================== *)

(** ** Go's [error] values *)

(** An [error] is an interface value.  [gorm.ErrRecordNotFound] is one
    package-level value; [errorString] stands for any other value made by
    [errors.New]; [wrapError] is what [fmt.Errorf] builds with the verb
    [%w] around an inner error. *)
Inductive error : Type :=
| ErrRecordNotFound
| errorString (msg : string)
| wrapError (msg : string) (inner : error).

(** [err == gorm.ErrRecordNotFound]: comparison of interface values, true
    for the sentinel itself only. *)
Definition eq_ErrRecordNotFound (err : error) : bool :=
  match err with
  | ErrRecordNotFound => true
  | _ => false
  end.

(** [errors.Is(err, gorm.ErrRecordNotFound)]: follows the chain of wrapped
    errors.  The handlers never call it; it is here to say what a wrapped
    not-found error is. *)
Fixpoint errors_Is_ErrRecordNotFound (err : error) : bool :=
  match err with
  | ErrRecordNotFound => true
  | errorString _ => false
  | wrapError _ inner => errors_Is_ErrRecordNotFound inner
  end.

Inductive result (T : Type) : Type :=
| Ok (v : T)
| Err (e : error).
Arguments Ok {T} v.
Arguments Err {T} e.

(** ** Bytes and decimal digits *)

Definition byte (c : ascii) : Z := Z.of_N (N_of_ascii c).

Definition isDigit (c : ascii) : bool := (48 <=? byte c) && (byte c <=? 57).

Definition digitVal (c : ascii) : Z := byte c - 48.

Definition digitChar (d : Z) : ascii := ascii_of_N (Z.to_N (48 + d)).

(** ** Package [time] *)

Module time.

(** A [Time]: seconds and nanoseconds since January 1 of year 1, 00:00:00
    UTC, and the offset (seconds east of UTC) its Location has at that
    instant.  The zero value [Time{}] is January 1, year 1, 00:00:00 UTC. *)
Record Time : Type := mkTime { sec : Z; nsec : Z; offset : Z }.

Definition zero : Time := mkTime 0 0 0.

Definition secondsPerDay : Z := 86400.

Definition isLeap (year : Z) : bool :=
  (year mod 4 =? 0) && (negb (year mod 100 =? 0) || (year mod 400 =? 0)).

(** [daysBefore[m]]: days in a non-leap year before month [m+1]. *)
Definition daysBefore (m : Z) : Z :=
  nth (Z.to_nat m) [0; 31; 59; 90; 120; 151; 181; 212; 243; 273; 304; 334; 365] 0.

Definition daysIn (month year : Z) : Z :=
  if (month =? 2) && isLeap year then 29
  else daysBefore month - daysBefore (month - 1).

(** Days from January 1 of year 1 to January 1 of [year] (proleptic
    Gregorian calendar; negative for year 0 and before). *)
Definition daysSinceYear1 (year : Z) : Z :=
  let y := year - 1 in 365 * y + y / 4 - y / 100 + y / 400.

(** [time.Date(year, month, day, 0, 0, 0, 0, time.UTC)]: the month is
    normalised into 1..12 with the overflow carried into the year; days are
    counted linearly from the first of the month. *)
Definition Date (year month day : Z) : Time :=
  let y := year + (month - 1) / 12 in
  let m := (month - 1) mod 12 + 1 in
  let d := daysSinceYear1 y + daysBefore (m - 1)
           + (if isLeap y && (3 <=? m) then 1 else 0)
           + (day - 1) in
  mkTime (d * secondsPerDay) 0 0.

(** Year and day of the year (from 0) of the day number [d] (days since
    January 1 of year 1): cut off 400-year, 100-year, 4-year and 1-year
    cycles, the last of each kind being one day longer. *)
Definition yearDay (d : Z) : Z * Z :=
  let n400 := d / 146097 in
  let d := d - 146097 * n400 in
  let n100 := Z.min 3 (d / 36524) in
  let d := d - 36524 * n100 in
  let n4 := d / 1461 in
  let d := d - 1461 * n4 in
  let n1 := Z.min 3 (d / 365) in
  let d := d - 365 * n1 in
  (400 * n400 + 100 * n100 + 4 * n4 + n1 + 1, d).

(** Month and day of the month of day [yday] of [year]. *)
Definition monthDay (year yday : Z) : Z * Z :=
  if isLeap year && (yday =? 31 + 29 - 1) then (2, 29)
  else
    let day := if isLeap year && (31 + 29 - 1 <? yday) then yday - 1 else yday in
    let month := day / 31 in
    let end_ := daysBefore (month + 1) in
    if end_ <=? day then (month + 2, day - end_ + 1)
    else (month + 1, day - daysBefore month + 1).

(** [t.Date()]: the calendar date of [t] in its Location. *)
Definition dateOf (t : Time) : Z * Z * Z :=
  let '(year, yday) := yearDay ((sec t + offset t) / secondsPerDay) in
  let '(month, day) := monthDay year yday in
  (year, month, day).

(** The pieces [nextStdChunk] cuts a layout into, as far as the package's
    one layout needs them. A literal is a byte other than a space. *)
Inductive chunk : Type :=
| stdLongYear              (* "2006" *)
| stdZeroMonth             (* "01" *)
| stdZeroDay               (* "02" *)
| literal (c : ascii).

(** The layout ["2006-01-02"]. *)
Definition layout_2006_01_02 : list chunk :=
  [stdLongYear; literal "-"; stdZeroMonth; literal "-"; stdZeroDay].

(** *** Formatting *)

(** The [width] low decimal digits of [u], most significant first, in
    front of [acc]. *)
Fixpoint lowDigits (width : nat) (u : Z) (acc : string) : string :=
  match width with
  | O => acc
  | S w => lowDigits w (u / 10) (String (digitChar (u mod 10)) acc)
  end.

(** Number of decimal digits of [0 <= u] ([fuel] bounds it). *)
Fixpoint countDigits (fuel : nat) (u : Z) : nat :=
  match fuel with
  | O => 1
  | S f => if u <? 10 then 1%nat else S (countDigits f (u / 10))
  end.

(** [appendInt(b, x, width)]: [x] in decimal, zero-padded to [width], with
    a leading minus sign when negative. *)
Definition appendInt (x : Z) (width : nat) : string :=
  let u := Z.abs x in
  let digits := lowDigits (Nat.max width (countDigits (Z.to_nat u) u)) u "" in
  if x <? 0 then String "-" digits else digits.

Definition formatChunk (year month day : Z) (c : chunk) : string :=
  match c with
  | stdLongYear => appendInt year 4
  | stdZeroMonth => appendInt month 2
  | stdZeroDay => appendInt day 2
  | literal ch => String ch ""
  end.

(** [t.Format(layout)]. *)
Definition Format (t : Time) (layout : list chunk) : string :=
  let '(year, month, day) := dateOf t in
  concat "" (map (formatChunk year month day) layout).

(** *** Parsing *)

(** [getnum(s, true)]: exactly two digits. *)
Definition getnum2 (s : string) : option (Z * string) :=
  match s with
  | String a (String b rest) =>
      if isDigit a && isDigit b then Some (digitVal a * 10 + digitVal b, rest)
      else None
  | _ => None
  end.

(** The [stdLongYear] case: four bytes, all of them digits. *)
Definition getyear (s : string) : option (Z * string) :=
  match s with
  | String a (String b (String c (String d rest))) =>
      if isDigit a && isDigit b && isDigit c && isDigit d
      then Some (((digitVal a * 10 + digitVal b) * 10 + digitVal c) * 10 + digitVal d, rest)
      else None
  | _ => None
  end.

(** What [Parse] has read so far; [-1] is "not in the value" for month and day. *)
Record fields : Type := mkFields { year : Z; month : Z; day : Z }.

Definition noFields : fields := mkFields 0 (-1) (-1).

(** One turn of [Parse]'s loop for each chunk of the layout. *)
Fixpoint parseChunks (layout : list chunk) (value : string) (f : fields)
  : result (fields * string) :=
  match layout with
  | [] => Ok (f, value)
  | stdLongYear :: layout' =>
      match getyear value with
      | Some (y, value') => parseChunks layout' value' (mkFields y (month f) (day f))
      | None => Err (errorString "parsing time: cannot parse year")
      end
  | stdZeroMonth :: layout' =>
      match getnum2 value with
      | Some (m, value') =>
          if (m <=? 0) || (12 <? m)
          then Err (errorString "parsing time: month out of range")
          else parseChunks layout' value' (mkFields (year f) m (day f))
      | None => Err (errorString "parsing time: cannot parse month")
      end
  | stdZeroDay :: layout' =>
      match getnum2 value with
      | Some (d, value') => parseChunks layout' value' (mkFields (year f) (month f) d)
      | None => Err (errorString "parsing time: cannot parse day")
      end
  | literal c :: layout' =>
      match value with
      | String c' value' =>
          if Ascii.eqb c c' then parseChunks layout' value' f
          else Err (errorString "parsing time: literal does not match")
      | EmptyString => Err (errorString "parsing time: value too short")
      end
  end.

(** [time.Parse(layout, value)]: both results, as Go returns them; next to
    an error the time is [Time{}]. *)
Definition Parse (layout : list chunk) (value : string) : Time * option error :=
  match parseChunks layout value noFields with
  | Err e => (zero, Some e)
  | Ok (f, EmptyString) =>
      let m := if month f <? 0 then 1 else month f in
      let d := if day f <? 0 then 1 else day f in
      if (d <? 1) || (daysIn m (year f) <? d)
      then (zero, Some (errorString "parsing time: day out of range"))
      else (Date (year f) m d, None)
  | Ok (_, String _ _) => (zero, Some (errorString "parsing time: extra text"))
  end.

End time.

(** ** Package [unicode/utf8] *)

Module utf8.

(** Size of the encoding that the leading byte [c] announces and the range
    its second byte must lie in; [None] for a byte that cannot lead
    (the table [first] with [acceptRanges]). *)
Definition first (c : Z) : option (nat * Z * Z) :=
  if (194 <=? c) && (c <=? 223) then Some (2%nat, 128, 191)
  else if c =? 224 then Some (3%nat, 160, 191)
  else if (225 <=? c) && (c <=? 236) then Some (3%nat, 128, 191)
  else if c =? 237 then Some (3%nat, 128, 159)
  else if (238 <=? c) && (c <=? 239) then Some (3%nat, 128, 191)
  else if c =? 240 then Some (4%nat, 144, 191)
  else if (241 <=? c) && (c <=? 243) then Some (4%nat, 128, 191)
  else if c =? 244 then Some (4%nat, 128, 143)
  else None.

Definition between (lo hi : Z) (c : ascii) : bool := (lo <=? byte c) && (byte c <=? hi).

(** Bytes taken by the rune that starts with [c] and goes on in [rest];
    an ill-formed or short sequence counts as one byte. *)
Definition runeWidth (c : ascii) (rest : string) : nat :=
  if byte c <? 128 then 1%nat
  else
    match first (byte c) with
    | None => 1%nat
    | Some (size, lo, hi) =>
        if (String.length rest <? size - 1)%nat then 1%nat
        else
          match size, rest with
          | 2%nat, String c1 _ => if between lo hi c1 then 2%nat else 1%nat
          | 3%nat, String c1 (String c2 _) =>
              if between lo hi c1 && between 128 191 c2 then 3%nat else 1%nat
          | 4%nat, String c1 (String c2 (String c3 _)) =>
              if between lo hi c1 && between 128 191 c2 && between 128 191 c3
              then 4%nat else 1%nat
          | _, _ => 1%nat
          end
    end.

(** The loop of [RuneCountInString]; [skip] bytes of the current rune are
    still to be passed over. *)
Fixpoint countRunes (s : string) (skip : nat) : Z :=
  match s with
  | EmptyString => 0
  | String c rest =>
      match skip with
      | S k => countRunes rest k
      | O => 1 + countRunes rest (runeWidth c rest - 1)
      end
  end.

Definition RuneCountInString (s : string) : Z := countRunes s 0.

End utf8.

(** ** Package [uuid] *)

Module uuid.

(** A [UUID] is sixteen bytes; here the number they spell, big-endian. *)
Definition UUID : Type := N.

(** [uuid.Nil], the zero value. *)
Definition Nil : UUID := 0%N.

Definition hexChar (d : N) : ascii :=
  match String.get (N.to_nat d) "0123456789abcdef" with
  | Some c => c
  | None => "0"%char
  end.

Fixpoint hex (digits : nat) (u : N) (acc : string) : string :=
  match digits with
  | O => acc
  | S k => hex k (u / 16)%N (String (hexChar (u mod 16)%N) acc)
  end.

(** [id.String()]: the form xxxxxxxx-xxxx-xxxx-xxxx-xxxxxxxxxxxx. *)
Definition String_ (id : UUID) : string :=
  let h := hex 32 id "" in
  substring 0 8 h ++ "-" ++ substring 8 4 h ++ "-" ++ substring 12 4 h ++ "-"
  ++ substring 16 4 h ++ "-" ++ substring 20 12 h.

End uuid.

(** ** The structs of the package *)

Record DTO : Type := mkDTO {
  DTO_ID : string;
  DTO_Title : string;
  DTO_Author : string;
  DTO_PublishedDate : string;
  DTO_ImageURL : string;
  DTO_Description : string
}.

Record Form : Type := mkForm {
  Form_Title : string;
  Form_Author : string;
  Form_PublishedDate : string;
  Form_ImageURL : string;
  Form_Description : string
}.

(** [gorm.DeletedAt], a nullable time: [Valid] is false for NULL. *)
Record DeletedAt : Type := mkDeletedAt {
  DeletedAt_Time : time.Time;
  DeletedAt_Valid : bool
}.

Record Book : Type := mkBook {
  Book_ID : uuid.UUID;
  Book_Title : string;
  Book_Author : string;
  Book_PublishedDate : time.Time;
  Book_ImageURL : string;
  Book_Description : string;
  Book_CreatedAt : time.Time;
  Book_UpdatedAt : time.Time;
  Book_DeletedAt : DeletedAt
}.

Definition Books : Type := list Book.

(** The assignment [b.ID = id]. *)
Definition set_ID (b : Book) (id : uuid.UUID) : Book :=
  mkBook id (Book_Title b) (Book_Author b) (Book_PublishedDate b) (Book_ImageURL b)
         (Book_Description b) (Book_CreatedAt b) (Book_UpdatedAt b) (Book_DeletedAt b).

(** ** The validator *)

Module validator.

(** The rules named in the [validate] tags of [Form]. *)
Inductive Tag : Type :=
| required
| max (param : Z)
| alphaspace
| datetime (layout : list time.chunk)
| url.

Inductive FormField : Type := Title | Author | PublishedDate | ImageURL | Description.

(** The tags of [Form], field by field in declaration order:
    [required,max=255], [required,alphaspace,max=255],
    [required,datetime=2006-01-02], [url], and none for the description. *)
Definition FormTags : list (FormField * list Tag) :=
  [ (Title, [required; max 255]);
    (Author, [required; alphaspace; max 255]);
    (PublishedDate, [required; datetime time.layout_2006_01_02]);
    (ImageURL, [url]);
    (Description, []) ].

Definition FormField_eqb (x y : FormField) : bool :=
  match x, y with
  | Title, Title | Author, Author | PublishedDate, PublishedDate
  | ImageURL, ImageURL | Description, Description => true
  | _, _ => false
  end.

(** The tags of one field, read off [FormTags]. *)
Definition tagsOf (fld : FormField) : list Tag :=
  match find (fun ft => FormField_eqb (fst ft) fld) FormTags with
  | Some ft => snd ft
  | None => []
  end.

Definition fieldValue (f : Form) (fld : FormField) : string :=
  match fld with
  | Title => Form_Title f
  | Author => Form_Author f
  | PublishedDate => Form_PublishedDate f
  | ImageURL => Form_ImageURL f
  | Description => Form_Description f
  end.

(** One entry of [validator.ValidationErrors]: the field and the tag that
    failed on it. *)
Record FieldError : Type := mkFieldError { Field : FormField; FailedTag : Tag }.

Definition isEmpty (s : string) : bool :=
  match s with
  | EmptyString => true
  | String _ _ => false
  end.

Definition isAlpha (c : ascii) : bool :=
  ((65 <=? byte c) && (byte c <=? 90)) || ((97 <=? byte c) && (byte c <=? 122)).

Fixpoint allBytes (p : ascii -> bool) (s : string) : bool :=
  match s with
  | EmptyString => true
  | String c rest => p c && allBytes p rest
  end.

(** Modelled from the spec: the custom rule [alphaspace], registered by the
    package [util/validator], which is not among the sources.  The spec's
    words for the author: "alphabetic-and-spaces only". *)
Definition isAlphaSpace (s : string) : bool :=
  allBytes (fun c => isAlpha c || Ascii.eqb c " ") s.

Section Rules.

(** The library's verdict on a non-empty string as a URL (it rests on
    [net/url]'s parser; its details vary with the library's version). *)
Variable wellFormedURL : string -> bool.

(** The rule [url] (the library's [isURL]): it returns false on a string of
    length 0 before it looks any further. *)
Definition isURL (s : string) : bool :=
  if isEmpty s then false else wellFormedURL s.

(** The function behind each tag, applied to a string field. *)
Definition holds (t : Tag) (s : string) : bool :=
  match t with
  | required => negb (isEmpty s)
  | max param => utf8.RuneCountInString s <=? param
  | alphaspace => isAlphaSpace s
  | datetime layout =>
      match snd (time.Parse layout s) with
      | None => true
      | Some _ => false
      end
  | url => isURL s
  end.

(** The walk over one field's tags ([traverseField]): the tags run in
    order, on an empty value as on any other (only the tag [omitempty],
    which [Form] does not use, ends the walk of an empty field), and the
    first that fails is reported and ends the walk of that field. *)
Fixpoint traverseField (fld : FormField) (tags : list Tag) (s : string)
  : list FieldError :=
  match tags with
  | [] => []
  | t :: tags' =>
      if holds t s then traverseField fld tags' s
      else [mkFieldError fld t]
  end.

(** [validate.Struct(form)]: every field is walked; the errors of all fields
    are collected in field order.  The empty list is the nil error. *)
Definition Struct (f : Form) : list FieldError :=
  flat_map (fun ft => traverseField (fst ft) (snd ft) (fieldValue f (fst ft))) FormTags.

(** A field is violated when one of its rules fails on its value. *)
Definition violated (f : Form) (fld : FormField) : bool :=
  existsb (fun t => negb (holds t (fieldValue f fld))) (tagsOf fld).

End Rules.

End validator.

(** ** The calendar, in the spec's words *)

Module calendar.

(** "A valid calendar date in YYYY-MM-DD": four digits, a dash, two digits,
    a dash, two digits, naming a month of the year and a day of that month
    in the Gregorian calendar. *)
Definition leapYear (y : Z) : bool :=
  if y mod 400 =? 0 then true
  else if y mod 100 =? 0 then false
  else y mod 4 =? 0.

Definition daysInMonth (y m : Z) : Z :=
  if m =? 2 then (if leapYear y then 29 else 28)
  else if (m =? 4) || (m =? 6) || (m =? 9) || (m =? 11) then 30
  else 31.

Definition dateString (a b c d e f g h : ascii) : string :=
  String a (String b (String c (String d (String "-"
    (String e (String f (String "-" (String g (String h ""))))))))).

Definition number2 (a b : ascii) : Z := digitVal a * 10 + digitVal b.

Definition number4 (a b c d : ascii) : Z :=
  ((digitVal a * 10 + digitVal b) * 10 + digitVal c) * 10 + digitVal d.

Definition isDate (s : string) : bool :=
  match s with
  | String a (String b (String c (String d (String h1
      (String e (String f (String h2 (String g (String h EmptyString))))))))) =>
      isDigit a && isDigit b && isDigit c && isDigit d
      && Ascii.eqb h1 "-" && isDigit e && isDigit f
      && Ascii.eqb h2 "-" && isDigit g && isDigit h
      && (1 <=? number2 e f) && (number2 e f <=? 12)
      && (1 <=? number2 g h)
      && (number2 g h <=? daysInMonth (number4 a b c d) (number2 e f))
  | _ => false
  end.

End calendar.

(** ** The mapper: [Form.ToModel], [Book.ToDto], [Books.ToDto] *)

(** [func (f *Form) ToModel() *Book]: the error of [time.Parse] is dropped
    and its time is used as it comes; the fields the literal does not name
    keep their zero values. *)
Definition Form_ToModel (f : Form) : Book :=
  let '(pubDate, _) := time.Parse time.layout_2006_01_02 (Form_PublishedDate f) in
  {| Book_ID := uuid.Nil;
     Book_Title := Form_Title f;
     Book_Author := Form_Author f;
     Book_PublishedDate := pubDate;
     Book_ImageURL := Form_ImageURL f;
     Book_Description := Form_Description f;
     Book_CreatedAt := time.zero;
     Book_UpdatedAt := time.zero;
     Book_DeletedAt := mkDeletedAt time.zero false |}.

(** [func (b *Book) ToDto() *DTO]. *)
Definition Book_ToDto (b : Book) : DTO :=
  {| DTO_ID := uuid.String_ (Book_ID b);
     DTO_Title := Book_Title b;
     DTO_Author := Book_Author b;
     DTO_PublishedDate := time.Format (Book_PublishedDate b) time.layout_2006_01_02;
     DTO_ImageURL := Book_ImageURL b;
     DTO_Description := Book_Description b |}.

(** The assignment [s[i] = x] on a slice (inside its length, the only way
    the package uses it). *)
Fixpoint slice_set {A : Type} (s : list A) (i : nat) (x : A) : list A :=
  match s, i with
  | [], _ => []
  | _ :: s', O => x :: s'
  | y :: s', S i' => y :: slice_set s' i' x
  end.

(** The loop [for i, v := range bs { dtos[i] = v.ToDto() }], from index [i]
    on over the rest [bs] of the slice. *)
Fixpoint Books_ToDto_loop (i : nat) (bs : Books) (dtos : list (option DTO))
  : list (option DTO) :=
  match bs with
  | [] => dtos
  | v :: bs' => Books_ToDto_loop (S i) bs' (slice_set dtos i (Some (Book_ToDto v)))
  end.

(** [func (bs Books) ToDto() []*DTO]: [make] gives [len(bs)] nil pointers,
    the loop overwrites them. *)
Definition Books_ToDto (bs : Books) : list (option DTO) :=
  Books_ToDto_loop 0 bs (repeat None (Datatypes.length bs)).

(** ** What the handlers are given *)

(** The error bodies [handler.go] names.  They are declared in the package
    [api/resource/common/err], which is not among the sources: their bytes
    are a parameter of the handlers ([RespBytes] below). *)
Inductive Resp : Type :=
| RespDBDataAccessFailure
| RespDBDataInsertFailure
| RespDBDataUpdateFailure
| RespDBDataRemoveFailure
| RespJSONEncodeFailure
| RespJSONDecodeFailure
| RespInvalidURLParamID.

(** Modelled from the spec: the body [validatorUtil.ToErrResponse] builds
    (the package [util/validator] is not among the sources): "a structured
    list of field+rule violations", one entry for each field error. *)
Record ErrResponse : Type := mkErrResponse {
  Errors : list (validator.FormField * validator.Tag)
}.

Definition ToErrResponse (errs : list validator.FieldError) : ErrResponse :=
  mkErrResponse (map (fun fe => (validator.Field fe, validator.FailedTag fe)) errs).

(** The values handed to [encoding/json]. *)
Inductive JSONValue : Type :=
| DTOValue (d : DTO)
| DTOSlice (ds : list (option DTO))
| ErrResponseValue (r : ErrResponse).

(** [*http.Request], as far as the handlers read it: the body and the URL
    parameters the router matched. *)
Record Request : Type := mkRequest {
  Body : string;
  URLParams : list (string * string)
}.

(** [chi.URLParam(r, key)]: the empty string when the key is not there. *)
Fixpoint chi_URLParam_in (params : list (string * string)) (key : string) : string :=
  match params with
  | [] => ""
  | (k, v) :: params' => if String.eqb k key then v else chi_URLParam_in params' key
  end.

Definition chi_URLParam (r : Request) (key : string) : string :=
  chi_URLParam_in (URLParams r) key.

(** The libraries and the collaborators behind the handlers.  The
    repository ([repository.go]) is not among the sources: it is taken by
    its interface, every method a function of the store's state.  A [DTO]
    is six strings, which [encoding/json] always marshals; the error
    response is declared outside the sources and may or may not marshal.
    [w_Write] is the response writer of the request: the error its [Write]
    returns for the bytes it is given, if any (a connection that broke). *)
Record Env : Type := mkEnv {
  (* encoding/json *)
  json_Decode : string -> result Form;
  json_MarshalDTO : DTO -> string;
  json_MarshalErrResponse : ErrResponse -> result string;
  (* net/http *)
  w_Write : string -> option error;
  (* github.com/google/uuid *)
  uuid_Parse : string -> result uuid.UUID;
  uuid_New : nat -> uuid.UUID;
  (* the validator's verdict on non-empty URLs *)
  wellFormedURL : string -> bool;
  (* the bytes of the error bodies *)
  RespBytes : Resp -> string;
  (* the repository *)
  Store : Type;
  repo_List : Store -> result Books * Store;
  repo_Create : Book -> Store -> result Z * Store;
  repo_Read : uuid.UUID -> Store -> result Book * Store;
  repo_Update : Book -> Store -> result Z * Store;
  repo_Delete : uuid.UUID -> Store -> result Z * Store
}.

(** [json.Marshal(v)]: a DTO by its text; a slice of pointers to DTOs (never
    a nil slice here, [make] built it) as the texts of its elements between
    brackets, [null] for a nil pointer; an error response if it marshals. *)
Definition json_Marshal (env : Env) (v : JSONValue) : result string :=
  match v with
  | DTOValue d => Ok (json_MarshalDTO env d)
  | DTOSlice ds =>
      Ok ("[" ++ concat ","
                   (map (fun d => match d with
                                  | Some d => json_MarshalDTO env d
                                  | None => "null"
                                  end) ds)
          ++ "]")
  | ErrResponseValue r => json_MarshalErrResponse env r
  end.

(** What a handler does that can be seen from outside, in the order it
    happens: calls of the repository, of the JSON encoder, and of the
    response writer. *)
Inductive Event : Type :=
| RepositoryList
| RepositoryCreate (b : Book)
| RepositoryRead (id : uuid.UUID)
| RepositoryUpdate (b : Book)
| RepositoryDelete (id : uuid.UUID)
| EncoderEncode (v : JSONValue)
| WriteHeader (statusCode : Z)
| Write (p : string).

Module http.

Definition StatusOK : Z := 200.
Definition StatusCreated : Z := 201.
Definition StatusBadRequest : Z := 400.
Definition StatusNotFound : Z := 404.
Definition StatusUnprocessableEntity : Z := 422.
Definition StatusInternalServerError : Z := 500.

(** The status line the server sends: the code of the first [WriteHeader],
    unless a [Write] comes first or nothing is written at all, which both
    mean 200. *)
Fixpoint statusCode (trace : list Event) : Z :=
  match trace with
  | [] => StatusOK
  | WriteHeader c :: _ => c
  | Write _ :: _ => StatusOK
  | _ :: trace' => statusCode trace'
  end.

(** The body the server sends: everything handed to [Write], in order
    (when a [Write] fails, less than that may reach the client). *)
Fixpoint body (trace : list Event) : string :=
  match trace with
  | [] => ""
  | Write p :: trace' => p ++ body trace'
  | _ :: trace' => body trace'
  end.

End http.

(** Whether the JSON encoder was called. *)
Definition encoderCalled (trace : list Event) : bool :=
  existsb (fun ev => match ev with EncoderEncode _ => true | _ => false end) trace.

(** The models handed to [Repository.Update]. *)
Definition updatedModels (trace : list Event) : list Book :=
  flat_map (fun ev => match ev with RepositoryUpdate b => [b] | _ => [] end) trace.

Definition newline : string := String (ascii_of_nat 10) "".

(** ** The handlers *)

Section Handlers.

Variable env : Env.

(** The state a handler runs in: the store behind the repository, the
    number of identifiers drawn so far, and the events so far. *)
Record World : Type := mkWorld {
  store : Store env;
  drawn : nat;
  trace : list Event
}.

Definition M (A : Type) : Type := World -> A * World.

Definition ret {A : Type} (a : A) : M A := fun w => (a, w).

Definition bind {A B : Type} (m : M A) (k : A -> M B) : M B :=
  fun w => let '(a, w') := m w in k a w'.

Notation "x <- m ;; k" := (bind m (fun x => k))
  (at level 61, m at next level, right associativity).
Notation "m ;; k" := (bind m (fun _ => k))
  (at level 61, right associativity).

Definition emit (ev : Event) : M unit :=
  fun w => (tt, mkWorld (store w) (drawn w) (trace w ++ [ev])).

(** A method of the repository: the call is recorded, the store moves on. *)
Definition call {A : Type} (ev : Event) (f : Store env -> A * Store env) : M A :=
  fun w => let '(a, st) := f (store w) in
           (a, mkWorld st (drawn w) (trace w ++ [ev])).

Definition repository_List : M (result Books) := call RepositoryList (repo_List env).
Definition repository_Create (b : Book) : M (result Z) :=
  call (RepositoryCreate b) (repo_Create env b).
Definition repository_Read (id : uuid.UUID) : M (result Book) :=
  call (RepositoryRead id) (repo_Read env id).
Definition repository_Update (b : Book) : M (result Z) :=
  call (RepositoryUpdate b) (repo_Update env b).
Definition repository_Delete (id : uuid.UUID) : M (result Z) :=
  call (RepositoryDelete id) (repo_Delete env id).

(** [uuid.New()]. *)
Definition uuid_New_ : M uuid.UUID :=
  fun w => (uuid_New env (drawn w), mkWorld (store w) (S (drawn w)) (trace w)).

(** The JSON encoding of a value as a [json.Encoder] produces it: the text
    [json.Marshal] gives, and a newline after it. *)
Definition Encoder_bytes (v : JSONValue) : result string :=
  match json_Marshal env v with
  | Ok b => Ok (b ++ newline)
  | Err err => Err err
  end.

(** [json.NewEncoder(w).Encode(v)]: when the value does not marshal,
    nothing is written and the error is returned; otherwise the encoding
    is handed to [w.Write] in one piece and the error of that call, if
    any, is returned. *)
Definition Encoder_Encode (v : JSONValue) : M (option error) :=
  emit (EncoderEncode v) ;;
  match Encoder_bytes v with
  | Err err => ret (Some err)
  | Ok b => emit (Write b) ;; ret (w_Write env b)
  end.

(** [fmt.Fprint(w, s)]. *)
Definition fmt_Fprint (s : string) : M unit := emit (Write s).

(** Modelled from the spec: the three helpers of the package
    [api/resource/common/err], which is not among the sources.  Each sets
    the status of its kind of failure and writes the body it is given: a
    server-side error ("HTTP-level: internal error", 500), a client-side
    bad request (400), and "validation failed" (422). *)
Definition e_ServerError (error : string) : M unit :=
  emit (WriteHeader http.StatusInternalServerError) ;; emit (Write error).

Definition e_BadRequest (error : string) : M unit :=
  emit (WriteHeader http.StatusBadRequest) ;; emit (Write error).

Definition e_ValidationErrors (reps : string) : M unit :=
  emit (WriteHeader http.StatusUnprocessableEntity) ;; emit (Write reps).

(** [api.validator.Struct(form)]. *)
Definition validator_Struct (form : Form) : list validator.FieldError :=
  validator.Struct (wellFormedURL env) form.

(** [func (api *API) List(w http.ResponseWriter, r *http.Request)] *)
Definition List (r : Request) : M unit :=
  res <- repository_List ;;
  match res with
  | Err _ => e_ServerError (RespBytes env RespDBDataAccessFailure)
  | Ok books =>
      if (Datatypes.length books =? 0)%nat then fmt_Fprint "[]"
      else
        err <- Encoder_Encode (DTOSlice (Books_ToDto books)) ;;
        match err with
        | Some _ => e_ServerError (RespBytes env RespJSONEncodeFailure)
        | None => ret tt
        end
  end.

(** [func (api *API) Create(w http.ResponseWriter, r *http.Request)] *)
Definition Create (r : Request) : M unit :=
  match json_Decode env (Body r) with
  | Err _ => e_ServerError (RespBytes env RespJSONDecodeFailure)
  | Ok form =>
      let err := validator_Struct form in
      match err with
      | _ :: _ =>
          match json_Marshal env (ErrResponseValue (ToErrResponse err)) with
          | Err _ => e_ServerError (RespBytes env RespJSONEncodeFailure)
          | Ok respBody => e_ValidationErrors respBody
          end
      | [] =>
          let newBook := Form_ToModel form in
          id <- uuid_New_ ;;
          let newBook := set_ID newBook id in
          res <- repository_Create newBook ;;
          match res with
          | Err _ => e_ServerError (RespBytes env RespDBDataInsertFailure)
          | Ok _ => emit (WriteHeader http.StatusCreated)
          end
      end
  end.

(** [func (api *API) Read(w http.ResponseWriter, r *http.Request)] *)
Definition Read (r : Request) : M unit :=
  match uuid_Parse env (chi_URLParam r "id") with
  | Err _ => e_BadRequest (RespBytes env RespInvalidURLParamID)
  | Ok id =>
      res <- repository_Read id ;;
      match res with
      | Err err =>
          if eq_ErrRecordNotFound err then emit (WriteHeader http.StatusNotFound)
          else e_ServerError (RespBytes env RespDBDataAccessFailure)
      | Ok book =>
          let dto := Book_ToDto book in
          err <- Encoder_Encode (DTOValue dto) ;;
          match err with
          | Some _ => e_ServerError (RespBytes env RespJSONEncodeFailure)
          | None => ret tt
          end
      end
  end.

(** [func (api *API) Update(w http.ResponseWriter, r *http.Request)] *)
Definition Update (r : Request) : M unit :=
  match uuid_Parse env (chi_URLParam r "id") with
  | Err _ => e_BadRequest (RespBytes env RespInvalidURLParamID)
  | Ok id =>
      match json_Decode env (Body r) with
      | Err _ => e_ServerError (RespBytes env RespJSONDecodeFailure)
      | Ok form =>
          let err := validator_Struct form in
          match err with
          | _ :: _ =>
              match json_Marshal env (ErrResponseValue (ToErrResponse err)) with
              | Err _ => e_ServerError (RespBytes env RespJSONEncodeFailure)
              | Ok respBody => e_ValidationErrors respBody
              end
          | [] =>
              let book := Form_ToModel form in
              let book := set_ID book id in
              res <- repository_Update book ;;
              match res with
              | Err _ => e_ServerError (RespBytes env RespDBDataUpdateFailure)
              | Ok rows => if rows =? 0 then emit (WriteHeader http.StatusNotFound) else ret tt
              end
          end
      end
  end.

(** [func (api *API) Delete(w http.ResponseWriter, r *http.Request)] *)
Definition Delete (r : Request) : M unit :=
  match uuid_Parse env (chi_URLParam r "id") with
  | Err _ => e_BadRequest (RespBytes env RespInvalidURLParamID)
  | Ok id =>
      res <- repository_Delete id ;;
      match res with
      | Err _ => e_BadRequest (RespBytes env RespDBDataRemoveFailure)
      | Ok rows => if rows =? 0 then emit (WriteHeader http.StatusNotFound) else ret tt
      end
  end.

(** One request served from a fresh response writer: the events of the
    handler. *)
Definition serve (h : Request -> M unit) (r : Request) (st : Store env) (n : nat)
  : list Event :=
  trace (snd (h r (mkWorld st n []))).

End Handlers.

(** ** A small environment to run the handlers in *)

Module sample.

Definition quote : string := String (ascii_of_nat 34) "".

(** Request bodies and the forms a decoder reads from them. *)
Definition goForm : Form :=
  mkForm "The Go Programming Language" "Alan Donovan" "2015-10-26"
         "https://www.gopl.io/cover.png" "An introduction to Go".

Definition goBody : string := "{go}".

(** No title, digits in the author, no image URL. *)
Definition badForm : Form := mkForm "" "R2D2" "2015-10-26" "" "".

Definition badBody : string := "{bad}".

(** Every field as it should be, and no image URL. *)
Definition plainForm : Form :=
  mkForm "The Go Programming Language" "Alan Donovan" "2015-10-26" "" "".

(** A decoder that knows the two bodies above and refuses everything else. *)
Definition Decode (body : string) : result Form :=
  if String.eqb body goBody then Ok goForm
  else if String.eqb body badBody then Ok badForm
  else Err (errorString "invalid character").

Definition jsonString (s : string) : string := quote ++ s ++ quote.

Definition jsonDTO (d : DTO) : string :=
  "{" ++ jsonString "id" ++ ":" ++ jsonString (DTO_ID d) ++ ","
  ++ jsonString "title" ++ ":" ++ jsonString (DTO_Title d) ++ ","
  ++ jsonString "Author" ++ ":" ++ jsonString (DTO_Author d) ++ ","
  ++ jsonString "published_date" ++ ":" ++ jsonString (DTO_PublishedDate d) ++ ","
  ++ jsonString "image_url" ++ ":" ++ jsonString (DTO_ImageURL d) ++ ","
  ++ jsonString "description" ++ ":" ++ jsonString (DTO_Description d) ++ "}".

Definition fieldName (fld : validator.FormField) : string :=
  match fld with
  | validator.Title => "title"
  | validator.Author => "author"
  | validator.PublishedDate => "published_date"
  | validator.ImageURL => "image_url"
  | validator.Description => "description"
  end.

Definition tagName (t : validator.Tag) : string :=
  match t with
  | validator.required => "required"
  | validator.max _ => "max"
  | validator.alphaspace => "alphaspace"
  | validator.datetime _ => "datetime"
  | validator.url => "url"
  end.

(** Marshallers without escaping, enough for the strings used here. *)
Definition MarshalErrResponse (r : ErrResponse) : result string :=
  Ok ("{" ++ jsonString "errors" ++ ":["
      ++ concat "," (map (fun e => jsonString (fieldName (fst e) ++ " " ++ tagName (snd e)))
                         (Errors r))
      ++ "]}").

Definition hexVal (c : ascii) : option N :=
  let b := byte c in
  if isDigit c then Some (Z.to_N (b - 48))
  else if (97 <=? b) && (b <=? 102) then Some (Z.to_N (b - 87))
  else if (65 <=? b) && (b <=? 70) then Some (Z.to_N (b - 55))
  else None.

Fixpoint parseHex (s : string) (acc : N) : option N :=
  match s with
  | EmptyString => Some acc
  | String c rest =>
      match hexVal c with
      | Some d => parseHex rest (16 * acc + d)%N
      | None => None
      end
  end.

(** The 36-byte form of [uuid.Parse]: xxxxxxxx-xxxx-xxxx-xxxx-xxxxxxxxxxxx. *)
Definition ParseUUID (s : string) : result uuid.UUID :=
  if (String.length s =? 36)%nat
     && String.eqb (substring 8 1 s) "-" && String.eqb (substring 13 1 s) "-"
     && String.eqb (substring 18 1 s) "-" && String.eqb (substring 23 1 s) "-"
  then
    match parseHex (substring 0 8 s ++ substring 9 4 s ++ substring 14 4 s
                    ++ substring 19 4 s ++ substring 24 12 s) 0%N with
    | Some id => Ok id
    | None => Err (errorString "invalid UUID format")
    end
  else Err (errorString "invalid UUID length").

Definition urlWithScheme (s : string) : bool :=
  prefix "http://" s || prefix "https://" s.

Definition Bytes (r : Resp) : string :=
  match r with
  | RespDBDataAccessFailure => "db data access failure"
  | RespDBDataInsertFailure => "db data insert failure"
  | RespDBDataUpdateFailure => "db data update failure"
  | RespDBDataRemoveFailure => "db data remove failure"
  | RespJSONEncodeFailure => "json encode failure"
  | RespJSONDecodeFailure => "json decode failure"
  | RespInvalidURLParamID => "invalid url param-id"
  end.

(** Modelled from the spec: a repository over a list of records (the
    repository is not among the sources).  List and Read see the records
    that are not marked deleted, Update and Delete report how many such
    records they touched, Delete marks instead of removing, and Read
    answers [ErrRecordNotFound] when no record matches. *)
Definition live (b : Book) : bool := negb (DeletedAt_Valid (Book_DeletedAt b)).

Definition matches (id : uuid.UUID) (b : Book) : bool := live b && N.eqb (Book_ID b) id.

Definition rows (id : uuid.UUID) (st : list Book) : Z :=
  Z.of_nat (Datatypes.length (filter (matches id) st)).

Definition overwrite (new old : Book) : Book :=
  mkBook (Book_ID old) (Book_Title new) (Book_Author new) (Book_PublishedDate new)
         (Book_ImageURL new) (Book_Description new) (Book_CreatedAt old)
         (Book_UpdatedAt old) (Book_DeletedAt old).

Definition markDeleted (b : Book) : Book :=
  mkBook (Book_ID b) (Book_Title b) (Book_Author b) (Book_PublishedDate b)
         (Book_ImageURL b) (Book_Description b) (Book_CreatedAt b)
         (Book_UpdatedAt b) (mkDeletedAt (Book_UpdatedAt b) true).

Definition ListRows (st : list Book) : result Books * list Book :=
  (Ok (filter live st), st).

Definition CreateRow (b : Book) (st : list Book) : result Z * list Book :=
  (Ok 1, st ++ [b])%list.

Definition ReadRow (id : uuid.UUID) (st : list Book) : result Book * list Book :=
  match find (matches id) st with
  | Some b => (Ok b, st)
  | None => (Err ErrRecordNotFound, st)
  end.

Definition UpdateRows (b : Book) (st : list Book) : result Z * list Book :=
  (Ok (rows (Book_ID b) st),
   map (fun old => if matches (Book_ID b) old then overwrite b old else old) st).

Definition DeleteRows (id : uuid.UUID) (st : list Book) : result Z * list Book :=
  (Ok (rows id st),
   map (fun old => if matches id old then markDeleted old else old) st).

Definition env : Env :=
  {| json_Decode := Decode;
     json_MarshalDTO := jsonDTO;
     json_MarshalErrResponse := MarshalErrResponse;
     w_Write := fun _ => None;
     uuid_Parse := ParseUUID;
     uuid_New := fun n => N.of_nat (S n);
     wellFormedURL := urlWithScheme;
     RespBytes := Bytes;
     Store := list Book;
     repo_List := ListRows;
     repo_Create := CreateRow;
     repo_Read := ReadRow;
     repo_Update := UpdateRows;
     repo_Delete := DeleteRows |}.

(** The same environment over a database that is down: every method of the
    repository fails, Read with a not-found error wrapped in another. *)
Definition down : error := wrapError "query failed" ErrRecordNotFound.

Definition envDown : Env :=
  {| json_Decode := Decode;
     json_MarshalDTO := jsonDTO;
     json_MarshalErrResponse := MarshalErrResponse;
     w_Write := fun _ => None;
     uuid_Parse := ParseUUID;
     uuid_New := fun n => N.of_nat (S n);
     wellFormedURL := urlWithScheme;
     RespBytes := Bytes;
     Store := unit;
     repo_List := fun st => (Err down, st);
     repo_Create := fun _ st => (Err down, st);
     repo_Read := fun _ st => (Err down, st);
     repo_Update := fun _ st => (Err down, st);
     repo_Delete := fun _ st => (Err down, st) |}.

(** The same over a repository that succeeds and touches no row. *)
Definition envIdle : Env :=
  {| json_Decode := Decode;
     json_MarshalDTO := jsonDTO;
     json_MarshalErrResponse := MarshalErrResponse;
     w_Write := fun _ => None;
     uuid_Parse := ParseUUID;
     uuid_New := fun n => N.of_nat (S n);
     wellFormedURL := urlWithScheme;
     RespBytes := Bytes;
     Store := unit;
     repo_List := fun st => (Ok [], st);
     repo_Create := fun _ st => (Ok 0, st);
     repo_Read := fun _ st => (Err ErrRecordNotFound, st);
     repo_Update := fun _ st => (Ok 0, st);
     repo_Delete := fun _ st => (Ok 0, st) |}.

Definition someID : string := "123e4567-e89b-12d3-a456-426614174000".

Definition goBook : Book :=
  set_ID (Form_ToModel goForm) 0x123e4567e89b12d3a456426614174000%N.

End sample.

(** ** Looking at a whole run *)

Definition isRepositoryCall (ev : Event) : bool :=
  match ev with
  | RepositoryList | RepositoryCreate _ | RepositoryRead _
  | RepositoryUpdate _ | RepositoryDelete _ => true
  | _ => false
  end.

(** The calls of the repository in a run, in order. *)
Definition repositoryCalls (trace : list Event) : list Event :=
  filter isRepositoryCall trace.

(** The status codes handed to [WriteHeader] in a run, in order. *)
Definition headerCalls (trace : list Event) : list Z :=
  flat_map (fun ev => match ev with WriteHeader c => [c] | _ => [] end) trace.

(** No [WriteHeader] comes after a [Write] (the server would ignore it and
    log a superfluous call). *)
Fixpoint headersFirst (trace : list Event) : bool :=
  match trace with
  | [] => true
  | Write _ :: trace' =>
      match headerCalls trace' with
      | [] => headersFirst trace'
      | _ :: _ => false
      end
  | _ :: trace' => headersFirst trace'
  end.

(** The models handed to [Repository.Create]. *)
Definition createdModels (trace : list Event) : list Book :=
  flat_map (fun ev => match ev with RepositoryCreate b => [b] | _ => [] end) trace.

(** The store a handler leaves behind, and the number of identifiers drawn
    by then. *)
Definition storeAfter (env : Env) (h : Request -> M env unit) (r : Request)
  (st : Store env) (n : nat) : Store env :=
  store env (snd (h r (mkWorld env st n []))).

Definition drawnAfter (env : Env) (h : Request -> M env unit) (r : Request)
  (st : Store env) (n : nat) : nat :=
  drawn env (snd (h r (mkWorld env st n []))).

(** What the encoder makes of a DTO: its JSON text and a newline. *)
Definition DTO_encoding (env : Env) (d : DTO) : string :=
  json_MarshalDTO env d ++ newline.

(** What the encoder makes of the DTOs of [books]: the JSON array of their
    texts, one for each book and in the order of the books, and a newline. *)
Definition Books_encoding (env : Env) (books : Books) : string :=
  ("[" ++ concat "," (map (fun b => json_MarshalDTO env (Book_ToDto b)) books) ++ "]")
  ++ newline.

(** The form a client sends when it sends back the fields of a DTO it
    has read. *)
Definition DTO_asForm (d : DTO) : Form :=
  mkForm (DTO_Title d) (DTO_Author d) (DTO_PublishedDate d) (DTO_ImageURL d)
         (DTO_Description d).

(** The place of a field in the declaration of [Form]. *)
Definition fieldRank (fld : validator.FormField) : Z :=
  match fld with
  | validator.Title => 0
  | validator.Author => 1
  | validator.PublishedDate => 2
  | validator.ImageURL => 3
  | validator.Description => 4
  end.

Module fixtures.

(** [sample.env] behind a connection that has broken: every [Write] of the
    response writer returns an error. *)
Definition envBroken : Env :=
  {| json_Decode := sample.Decode;
     json_MarshalDTO := sample.jsonDTO;
     json_MarshalErrResponse := sample.MarshalErrResponse;
     w_Write := fun _ => Some (errorString "write: broken pipe");
     uuid_Parse := sample.ParseUUID;
     uuid_New := fun n => N.of_nat (S n);
     wellFormedURL := sample.urlWithScheme;
     RespBytes := sample.Bytes;
     Store := list Book;
     repo_List := sample.ListRows;
     repo_Create := sample.CreateRow;
     repo_Read := sample.ReadRow;
     repo_Update := sample.UpdateRows;
     repo_Delete := sample.DeleteRows |}.

Definition goRequest : Request := mkRequest sample.goBody [("id", sample.someID)].

Definition badRequest : Request := mkRequest sample.badBody [("id", sample.someID)].

Definition noIDRequest : Request := mkRequest sample.goBody [("id", "42")].

End fixtures.

(** Run a handler down to its last world. *)
Ltac run_world :=
  unfold serve, storeAfter, drawnAfter, List, Create, Read, Update, Delete,
    repository_List, repository_Create, repository_Read, repository_Update,
    repository_Delete, call, Encoder_Encode, uuid_New_,
    e_ServerError, e_BadRequest, e_ValidationErrors, fmt_Fprint, emit, bind, ret;
  cbn [fst snd trace store drawn app].

(** Split on everything a run still waits for: what the libraries and the
    repository return. *)
Ltac split_run :=
  repeat first
    [ progress cbn [fst snd trace store drawn app]
    | progress cbv zeta
    | match goal with
      | |- context [match w_Write ?e ?b with _ => _ end] =>
          destruct (w_Write e b) eqn:?
      | |- context [match ?x with _ => _ end] =>
          lazymatch x with
          | context [match _ with _ => _ end] => fail
          | _ => destruct x eqn:?
          end
      end ].

(** The numbers of a list go up strictly. *)
Fixpoint ascending (l : list Z) : bool :=
  match l with
  | [] => true
  | x :: l' =>
      match l' with
      | [] => true
      | y :: _ => (x <? y) && ascending l'
      end
  end.

(** ** Tactics *)

(** Case analysis on an integer known to lie in [lo, lo + n). *)
Ltac split_range x lo n :=
  let rec go k n :=
    lazymatch n with
    | O => exfalso; lia
    | S ?n' =>
        let H := fresh "Hcase" in
        let k' := eval vm_compute in (k + 1) in
        destruct (Z.eq_dec x k) as [H | H]; [ subst x | go k' n' ]
    end in
  go lo n.

Ltac closed_Z k :=
  let v := eval vm_compute in k in
  lazymatch v with Z0 => idtac | Zpos _ => idtac | Zneg _ => idtac end.

(** Look up [daysBefore] where its argument is a number. *)
Ltac eval_daysBefore :=
  repeat match goal with
    | |- context [time.daysBefore ?k] =>
        closed_Z k;
        let v := eval vm_compute in (time.daysBefore k) in
        change (time.daysBefore k) with v
    | H : context [time.daysBefore ?k] |- _ =>
        closed_Z k;
        let v := eval vm_compute in (time.daysBefore k) in
        change (time.daysBefore k) with v in H
    end.

(** Decide the comparisons between numbers. *)
Ltac eval_closed_tests :=
  repeat match goal with
    | |- context [ Z.leb ?a ?b ] =>
        closed_Z a; closed_Z b;
        let v := eval vm_compute in (Z.leb a b) in change (Z.leb a b) with v
    | |- context [ Z.eqb ?a ?b ] =>
        closed_Z a; closed_Z b;
        let v := eval vm_compute in (Z.eqb a b) in change (Z.eqb a b) with v
    end; cbn [andb orb negb]; cbv beta iota.

(** Split on the remaining comparisons, dropping the impossible sides. *)
Ltac split_tests :=
  repeat match goal with
    | |- context [ Z.eqb ?a ?b ] => destruct (Z.eqb_spec a b); try lia
    | |- context [ Z.ltb ?a ?b ] => destruct (Z.ltb_spec a b); try lia
    | |- context [ Z.leb ?a ?b ] => destruct (Z.leb_spec a b); try lia
    | H : context [ Z.eqb ?a ?b ] |- _ => destruct (Z.eqb_spec a b); try lia
    end; cbn [andb orb negb] in *.

(** One step of running [Parse] on a value given byte by byte; [digit_bounds]
    is the lemma that bounds the value of a digit. *)
Ltac parse_step H digit_bounds :=
  first
    [ discriminate H
    | progress cbn [andb orb time.parseChunks time.getyear time.getnum2
                    time.year time.month time.day] in H
    | match type of H with
      | context [isDigit ?x] =>
          let D := fresh "D" in
          destruct (isDigit x) eqn:D;
          [ pose proof (proj2 (digit_bounds x D)) | ]
      | context [Ascii.eqb ?x ?y] => destruct (Ascii.eqb_spec x y); [subst|]
      | context [Z.leb ?x ?y] => destruct (Z.leb_spec x y); try lia
      | context [Z.ltb ?x ?y] => destruct (Z.ltb_spec x y); try lia
      end ].

(** Run a handler: unfold the monad and the helpers down to the events. *)
Ltac run :=
  unfold serve, List, Create, Read, Update, Delete,
    repository_List, repository_Create, repository_Read, repository_Update,
    repository_Delete, call, Encoder_Encode, uuid_New_,
    e_ServerError, e_BadRequest, e_ValidationErrors, fmt_Fprint, emit, bind, ret;
  cbn [fst snd trace store drawn app].


(* ================================================================== *)
(** * Part II: lemmas and theorems *)
(* ================================================================== *)

(** ** The model at work *)

Example Parse_leap_day :
  time.Parse time.layout_2006_01_02 "2020-02-29" = (time.mkTime 63718531200 0 0, None).
Proof. reflexivity. Qed.

Example Format_leap_day :
  time.Format (time.mkTime 63718531200 0 0) time.layout_2006_01_02 = "2020-02-29".
Proof. reflexivity. Qed.

Example Parse_no_such_day :
  fst (time.Parse time.layout_2006_01_02 "2021-02-29") = time.zero
  /\ fst (time.Parse time.layout_2006_01_02 "1900-02-29") = time.zero
  /\ fst (time.Parse time.layout_2006_01_02 "26/10/2015") = time.zero.
Proof. repeat split. Qed.

Example Format_beyond_four_digits :
  time.Format (time.mkTime (86400 * 365 * 12000) 0 0) time.layout_2006_01_02
  = "11993-01-13".
Proof. reflexivity. Qed.

Example RuneCount_counts_runes :
  utf8.RuneCountInString
    (String (ascii_of_nat 104) (String (ascii_of_nat 195) (String (ascii_of_nat 169) "")))
  = 2.
Proof. reflexivity. Qed.

Example String_of_an_identifier :
  uuid.String_ 0x123e4567e89b12d3a456426614174000%N = sample.someID
  /\ uuid.String_ uuid.Nil = "00000000-0000-0000-0000-000000000000".
Proof. split; reflexivity. Qed.

Example Create_then_List :
  serve sample.env (Create sample.env) (mkRequest sample.goBody []) [] 0
  = [RepositoryCreate (set_ID (Form_ToModel sample.goForm) 1%N); WriteHeader 201]
  /\ exists bytes,
       Encoder_bytes sample.env
         (DTOSlice [Some (Book_ToDto (set_ID (Form_ToModel sample.goForm) 1%N))])
       = Ok bytes
       /\ http.body (serve sample.env (List sample.env) (mkRequest "" [])
                       [set_ID (Form_ToModel sample.goForm) 1%N] 0)
          = bytes.
Proof. split; [reflexivity|]. eexists. split; reflexivity. Qed.

Example Delete_twice :
  serve sample.env (Delete sample.env) (mkRequest "" [("id", sample.someID)])
    [sample.goBook] 0
  = [RepositoryDelete 0x123e4567e89b12d3a456426614174000%N]
  /\ serve sample.env (Delete sample.env) (mkRequest "" [("id", sample.someID)])
       [sample.markDeleted sample.goBook] 0
     = [RepositoryDelete 0x123e4567e89b12d3a456426614174000%N; WriteHeader 404].
Proof. split; reflexivity. Qed.

(** ** The calendar: a day number and back *)

Lemma div_lin n a k : 0 <= k < n -> (n * a + k) / n = a.
Proof.
  intros H. symmetry. apply Z.div_unique with (r := k); lia.
Qed.

(** Every year is the [e]-th of the [c]-th four-year cycle of the [b]-th
    century of the [a]-th 400-year cycle, counting all from 0. *)
Lemma year_decomp y :
  exists a b c e,
    y - 1 = 400 * a + 100 * b + 4 * c + e
    /\ 0 <= b <= 3 /\ 0 <= c <= 24 /\ 0 <= e <= 3.
Proof.
  exists ((y - 1) / 400), ((y - 1) mod 400 / 100), ((y - 1) mod 100 / 4), ((y - 1) mod 4).
  Z.div_mod_to_equations. lia.
Qed.

Lemma days_decomp a b c e :
  0 <= b <= 3 -> 0 <= c <= 24 -> 0 <= e <= 3 ->
  time.daysSinceYear1 (400 * a + 100 * b + 4 * c + e + 1)
  = 146097 * a + 36524 * b + 1461 * c + 365 * e.
Proof.
  intros. unfold time.daysSinceYear1. cbv zeta.
  replace (400 * a + 100 * b + 4 * c + e + 1 - 1)
    with (400 * a + 100 * b + 4 * c + e) by lia.
  Z.div_mod_to_equations. lia.
Qed.

Lemma leap_decomp a b c e :
  0 <= b <= 3 -> 0 <= c <= 24 -> 0 <= e <= 3 ->
  time.isLeap (400 * a + 100 * b + 4 * c + e + 1)
  = (e =? 3) && (negb (c =? 24) || (b =? 3)).
Proof.
  intros. unfold time.isLeap.
  repeat match goal with
    | |- context [ ?x =? ?y ] => destruct (Z.eqb_spec x y)
    end; simpl; try reflexivity; exfalso; Z.div_mod_to_equations; lia.
Qed.

Lemma yearDay_decomp a b c e yd :
  0 <= b <= 3 -> 0 <= c <= 24 -> 0 <= e <= 3 ->
  0 <= yd -> yd < 365 + (if (e =? 3) && (negb (c =? 24) || (b =? 3)) then 1 else 0) ->
  time.yearDay (146097 * a + 36524 * b + 1461 * c + 365 * e + yd)
  = (400 * a + 100 * b + 4 * c + e + 1, yd).
Proof.
  intros Hb Hc He Hyd Hlt. unfold time.yearDay. cbv zeta.
  assert (H400 : (146097 * a + 36524 * b + 1461 * c + 365 * e + yd) / 146097 = a).
  { replace (146097 * a + 36524 * b + 1461 * c + 365 * e + yd)
      with (146097 * a + (36524 * b + 1461 * c + 365 * e + yd)) by lia.
    apply div_lin.
    destruct (Z.eqb_spec e 3), (Z.eqb_spec c 24), (Z.eqb_spec b 3); simpl in Hlt; lia. }
  rewrite H400.
  replace (146097 * a + 36524 * b + 1461 * c + 365 * e + yd - 146097 * a)
    with (36524 * b + (1461 * c + 365 * e + yd)) by lia.
  assert (H100 : Z.min 3 ((36524 * b + (1461 * c + 365 * e + yd)) / 36524) = b).
  { destruct (Z.eqb_spec e 3), (Z.eqb_spec c 24), (Z.eqb_spec b 3); simpl in Hlt;
      try (rewrite div_lin by lia; lia).
    subst. Z.div_mod_to_equations. lia. }
  rewrite H100.
  replace (36524 * b + (1461 * c + 365 * e + yd) - 36524 * b)
    with (1461 * c + (365 * e + yd)) by lia.
  assert (H4 : (1461 * c + (365 * e + yd)) / 1461 = c).
  { apply div_lin.
    destruct (Z.eqb_spec e 3), (Z.eqb_spec c 24), (Z.eqb_spec b 3); simpl in Hlt; lia. }
  rewrite H4.
  replace (1461 * c + (365 * e + yd) - 1461 * c) with (365 * e + yd) by lia.
  assert (H1 : Z.min 3 ((365 * e + yd) / 365) = e).
  { destruct (Z.eqb_spec e 3), (Z.eqb_spec c 24), (Z.eqb_spec b 3); simpl in Hlt;
      try (rewrite div_lin by lia; lia); subst; Z.div_mod_to_equations; lia. }
  rewrite H1. f_equal. lia.
Qed.

(** The year and the day of the year are found again from the day number. *)
Lemma yearDay_spec y yd :
  0 <= yd -> yd < 365 + (if time.isLeap y then 1 else 0) ->
  time.yearDay (time.daysSinceYear1 y + yd) = (y, yd).
Proof.
  intros H0 H1.
  destruct (year_decomp y) as (a & b & c & e & Hy & Hb & Hc & He).
  replace y with (400 * a + 100 * b + 4 * c + e + 1) in * by lia.
  rewrite leap_decomp in H1 by assumption.
  rewrite days_decomp by assumption.
  apply yearDay_decomp; assumption.
Qed.

(** The month and the day are found again from the day of the year. *)
Lemma monthDay_spec y m d :
  1 <= m <= 12 -> 1 <= d <= time.daysIn m y ->
  time.monthDay y (time.daysBefore (m - 1)
                   + (if time.isLeap y && (3 <=? m) then 1 else 0) + (d - 1)) = (m, d).
Proof.
  intros Hm Hd. unfold time.daysIn in Hd. unfold time.monthDay.
  destruct (time.isLeap y); split_range m 1 12%nat;
    cbn [andb orb negb] in *; eval_daysBefore; eval_closed_tests; split_tests;
    try (f_equal; lia).
  all: match goal with
       | |- context [ ?e / 31 ] =>
           let q := fresh "q" in
           let Hq := fresh "Hq" in
           let Hb := fresh "Hb" in
           remember (e / 31) as q eqn:Hq;
           assert (Hb : 31 * q <= e < 31 * q + 31)
             by (subst q; Z.div_mod_to_equations; lia);
           clear Hq;
           split_range q 0 12%nat; try lia
       end.
  all: eval_daysBefore; split_tests; f_equal; lia.
Qed.

Lemma yday_bounds y m d :
  1 <= m <= 12 -> 1 <= d <= time.daysIn m y ->
  0 <= time.daysBefore (m - 1) + (if time.isLeap y && (3 <=? m) then 1 else 0) + (d - 1)
    < 365 + (if time.isLeap y then 1 else 0).
Proof.
  intros Hm Hd. unfold time.daysIn in Hd.
  destruct (time.isLeap y); split_range m 1 12%nat;
    cbn [andb orb negb] in *; eval_daysBefore; eval_closed_tests; split_tests; lia.
Qed.

(** [Date(y, m, d).Date()] is [(y, m, d)] for a day of the calendar. *)
Lemma dateOf_Date y m d :
  1 <= m <= 12 -> 1 <= d <= time.daysIn m y ->
  time.dateOf (time.Date y m d) = (y, m, d).
Proof.
  intros Hm Hd. unfold time.dateOf, time.Date. cbv zeta.
  cbn [time.sec time.offset].
  replace ((m - 1) / 12) with 0 by (Z.div_mod_to_equations; lia).
  replace ((m - 1) mod 12 + 1) with m by (Z.div_mod_to_equations; lia).
  replace (y + 0) with y by lia.
  rewrite Z.add_0_r, Z.div_mul by (unfold time.secondsPerDay; lia).
  rewrite <- !Z.add_assoc.
  rewrite yearDay_spec by (rewrite !Z.add_assoc; apply yday_bounds; assumption).
  rewrite !Z.add_assoc, monthDay_spec by assumption.
  reflexivity.
Qed.

(** The library's calendar is the spec's. *)
Lemma isLeap_leapYear y : time.isLeap y = calendar.leapYear y.
Proof.
  unfold time.isLeap, calendar.leapYear.
  repeat match goal with
    | |- context [ ?x =? ?y ] => destruct (Z.eqb_spec x y)
    end; simpl; try reflexivity; exfalso; Z.div_mod_to_equations; lia.
Qed.

Lemma daysIn_daysInMonth y m :
  1 <= m <= 12 -> time.daysIn m y = calendar.daysInMonth y m.
Proof.
  intros Hm. unfold time.daysIn, calendar.daysInMonth.
  rewrite isLeap_leapYear.
  destruct (calendar.leapYear y); split_range m 1 12%nat; reflexivity.
Qed.

(** ** Decimal digits *)

Lemma isDigit_roundtrip c :
  isDigit c = true -> digitChar (digitVal c) = c /\ 0 <= digitVal c <= 9.
Proof.
  destruct c as [[] [] [] [] [] [] [] []]; cbv; intros H; try discriminate H;
    (split; [reflexivity | split; discriminate]).
Qed.

Lemma countDigits_le k : forall fuel u,
  0 <= u < 10 ^ Z.of_nat (S k) -> (time.countDigits fuel u <= S k)%nat.
Proof.
  induction k as [|k IH]; intros fuel u Hu.
  - change (10 ^ Z.of_nat 1) with 10 in Hu.
    destruct fuel; cbn [time.countDigits]; [lia|].
    destruct (Z.ltb_spec u 10); lia.
  - destruct fuel; cbn [time.countDigits]; [lia|].
    destruct (Z.ltb_spec u 10); [lia|].
    apply le_n_S, IH.
    rewrite Nat2Z.inj_succ, Z.pow_succ_r in Hu by lia.
    split; [apply Z.div_pos; lia | apply Z.div_lt_upper_bound; lia].
Qed.

Lemma appendInt_2 a b :
  0 <= a <= 9 -> 0 <= b <= 9 ->
  time.appendInt (a * 10 + b) 2 = String (digitChar a) (String (digitChar b) "").
Proof.
  intros Ha Hb. unfold time.appendInt.
  destruct (Z.ltb_spec (a * 10 + b) 0); [lia|].
  rewrite Z.abs_eq by lia.
  rewrite (Nat.max_l 2)
    by (apply (countDigits_le 1); change (10 ^ Z.of_nat 2) with 100; lia).
  cbn [time.lowDigits].
  replace ((a * 10 + b) mod 10) with b by (Z.div_mod_to_equations; lia).
  replace ((a * 10 + b) / 10) with a by (Z.div_mod_to_equations; lia).
  rewrite Z.mod_small by lia. reflexivity.
Qed.

Lemma appendInt_4 a b c d :
  0 <= a <= 9 -> 0 <= b <= 9 -> 0 <= c <= 9 -> 0 <= d <= 9 ->
  time.appendInt (((a * 10 + b) * 10 + c) * 10 + d) 4
  = String (digitChar a) (String (digitChar b)
      (String (digitChar c) (String (digitChar d) ""))).
Proof.
  intros Ha Hb Hc Hd. unfold time.appendInt.
  destruct (Z.ltb_spec (((a * 10 + b) * 10 + c) * 10 + d) 0); [lia|].
  rewrite Z.abs_eq by lia.
  rewrite (Nat.max_l 4)
    by (apply (countDigits_le 3); change (10 ^ Z.of_nat 4) with 10000; lia).
  cbn [time.lowDigits].
  replace ((((a * 10 + b) * 10 + c) * 10 + d) mod 10) with d
    by (Z.div_mod_to_equations; lia).
  replace ((((a * 10 + b) * 10 + c) * 10 + d) / 10) with ((a * 10 + b) * 10 + c)
    by (Z.div_mod_to_equations; lia).
  replace (((a * 10 + b) * 10 + c) mod 10) with c by (Z.div_mod_to_equations; lia).
  replace (((a * 10 + b) * 10 + c) / 10) with (a * 10 + b)
    by (Z.div_mod_to_equations; lia).
  replace ((a * 10 + b) mod 10) with b by (Z.div_mod_to_equations; lia).
  replace ((a * 10 + b) / 10) with a by (Z.div_mod_to_equations; lia).
  rewrite Z.mod_small by lia. reflexivity.
Qed.

(** ** [time.Parse] and [Time.Format] at the layout 2006-01-02 *)

(** What a value that parses looks like, and the time it parses to. *)
Lemma Parse_ok_inv s t :
  time.Parse time.layout_2006_01_02 s = (t, None) ->
  exists a b c d e f g h,
    s = calendar.dateString a b c d e f g h
    /\ isDigit a = true /\ isDigit b = true /\ isDigit c = true /\ isDigit d = true
    /\ isDigit e = true /\ isDigit f = true /\ isDigit g = true /\ isDigit h = true
    /\ 1 <= calendar.number2 e f <= 12
    /\ 1 <= calendar.number2 g h
         <= time.daysIn (calendar.number2 e f) (calendar.number4 a b c d)
    /\ t = time.Date (calendar.number4 a b c d) (calendar.number2 e f)
                     (calendar.number2 g h).
Proof.
  unfold time.Parse, time.layout_2006_01_02, time.noFields,
    calendar.number2, calendar.number4.
  intros H.
  destruct s as [|a [|b [|c [|d [|h1 [|e [|f [|h2 [|g [|h [|x rest]]]]]]]]]]].
  all: repeat parse_step H isDigit_roundtrip.
  injection H as <-.
  exists a, b, c, d, e, f, g, h.
  repeat split; try assumption; try lia.
Qed.

(** A value parses exactly when it is a date of the calendar. *)
Lemma Parse_ok_isDate s :
  snd (time.Parse time.layout_2006_01_02 s) = None <-> calendar.isDate s = true.
Proof.
  split.
  - intros H. destruct (time.Parse time.layout_2006_01_02 s) as [t o] eqn:E.
    cbn [snd] in H. subst o. apply Parse_ok_inv in E.
    destruct E as (a & b & c & d & e & f & g & h & -> & Da & Db & Dc & Dd & De & Df
                   & Dg & Dh & Hm & Hd & _).
    rewrite daysIn_daysInMonth in Hd by assumption.
    unfold calendar.isDate, calendar.dateString.
    rewrite Da, Db, Dc, Dd, De, Df, Dg, Dh. cbn [andb Ascii.eqb Bool.eqb].
    repeat (apply andb_true_intro; split); apply Z.leb_le; lia.
  - unfold calendar.isDate. intros H.
    destruct s as [|a [|b [|c [|d [|h1 [|e [|f [|h2 [|g [|h [|x rest]]]]]]]]]]];
      try discriminate H.
    rewrite !andb_true_iff in H.
    destruct H as [[[[[[[[[[[[[Da Db] Dc] Dd] E1] De] Df] E2] Dg] Dh] M1] M2] D1] D2].
    apply Ascii.eqb_eq in E1, E2. subst h1 h2.
    apply Z.leb_le in M1, M2, D1, D2.
    rewrite <- daysIn_daysInMonth in D2 by lia.
    unfold calendar.number2, calendar.number4 in *.
    unfold time.Parse, time.layout_2006_01_02, time.noFields.
    cbn [time.parseChunks time.getyear]. rewrite Da, Db, Dc, Dd.
    cbn [andb]. rewrite Ascii.eqb_refl.
    cbn [time.getnum2]. rewrite De, Df. cbn [andb].
    destruct (Z.leb_spec (digitVal e * 10 + digitVal f) 0); [lia|].
    destruct (Z.ltb_spec 12 (digitVal e * 10 + digitVal f)); [lia|].
    cbn [orb]. rewrite Ascii.eqb_refl.
    cbn [time.getnum2]. rewrite Dg, Dh.
    cbn [andb time.year time.month time.day].
    destruct (Z.ltb_spec (digitVal e * 10 + digitVal f) 0); [lia|].
    destruct (Z.ltb_spec (digitVal g * 10 + digitVal h) 0); [lia|].
    destruct (Z.ltb_spec (digitVal g * 10 + digitVal h) 1); [lia|].
    match goal with
    | |- context [Z.ltb ?x ?y] => destruct (Z.ltb_spec x y); [lia|]
    end.
    reflexivity.
Qed.

(** Formatting what was parsed gives the value back. *)
Lemma Format_Parse s t :
  time.Parse time.layout_2006_01_02 s = (t, None) ->
  time.Format t time.layout_2006_01_02 = s.
Proof.
  intros H. apply Parse_ok_inv in H.
  destruct H as (a & b & c & d & e & f & g & h & -> & Da & Db & Dc & Dd & De & Df
                 & Dg & Dh & Hm & Hd & ->).
  apply isDigit_roundtrip in Da, Db, Dc, Dd, De, Df, Dg, Dh.
  unfold time.Format. rewrite dateOf_Date by assumption.
  unfold time.layout_2006_01_02, calendar.number2, calendar.number4.
  cbn [map time.formatChunk concat].
  rewrite appendInt_4, !appendInt_2 by tauto.
  destruct Da as [-> _], Db as [-> _], Dc as [-> _], Dd as [-> _],
           De as [-> _], Df as [-> _], Dg as [-> _], Dh as [-> _].
  reflexivity.
Qed.

(** Next to an error, [Parse] returns the zero time. *)
Lemma Parse_error_zero s t err :
  time.Parse time.layout_2006_01_02 s = (t, Some err) -> t = time.zero.
Proof.
  unfold time.Parse. intros H.
  destruct (time.parseChunks time.layout_2006_01_02 s time.noFields)
    as [[f [|x rest]]|e].
  - destruct ((_ <? 1) || _); [injection H as <- _; reflexivity | discriminate H].
  - injection H as <- _. reflexivity.
  - injection H as <- _. reflexivity.
Qed.

(** ** The validator *)

Section ValidatorFacts.

Variable wf : string -> bool.

(** [Struct] walks the four tagged fields in order. *)
Lemma Struct_fields f :
  validator.Struct wf f
  = (validator.traverseField wf validator.Title
       (validator.tagsOf validator.Title) (Form_Title f)
     ++ validator.traverseField wf validator.Author
          (validator.tagsOf validator.Author) (Form_Author f)
     ++ validator.traverseField wf validator.PublishedDate
          (validator.tagsOf validator.PublishedDate) (Form_PublishedDate f)
     ++ validator.traverseField wf validator.ImageURL
          (validator.tagsOf validator.ImageURL) (Form_ImageURL f))%list.
Proof.
  unfold validator.Struct, validator.FormTags. cbn [flat_map fst snd].
  cbn [validator.fieldValue validator.traverseField]. rewrite !app_nil_r.
  reflexivity.
Qed.

(** An error of a field's walk names that field and a tag of it that fails. *)
Lemma traverseField_In fld tags s fe :
  In fe (validator.traverseField wf fld tags s) ->
  validator.Field fe = fld
  /\ In (validator.FailedTag fe) tags
  /\ validator.holds wf (validator.FailedTag fe) s = false.
Proof.
  induction tags as [|t tags IH]; cbn [validator.traverseField]; intros H.
  - destruct H.
  - destruct (validator.holds wf t s) eqn:E.
    + destruct (IH H) as (H1 & H2 & H3). repeat split; [assumption | now right | assumption].
    + destruct H as [<- | []]. repeat split; [now left | assumption].
Qed.


(** A field whose rules all hold gets none. *)
Lemma traverseField_nil fld tags s :
  validator.traverseField wf fld tags s = [] <->
  forallb (fun t => validator.holds wf t s) tags = true.
Proof.
  induction tags as [|t tags IH]; cbn [forallb validator.traverseField].
  - tauto.
  - destruct (validator.holds wf t s); cbn [andb]; [exact IH | split; discriminate].
Qed.


(** Every error of [Struct] names a violated field. *)
Lemma Struct_sound f fe :
  In fe (validator.Struct wf f) ->
  validator.violated wf f (validator.Field fe) = true.
Proof.
  rewrite Struct_fields, !in_app_iff. unfold validator.violated.
  intros H. apply existsb_exists. exists (validator.FailedTag fe).
  destruct H as [H | [H | [H | H]]]; apply traverseField_In in H;
    destruct H as (-> & H2 & H3); cbn [validator.fieldValue];
    (split; [exact H2 | rewrite H3; reflexivity]).
Qed.

(** A valid form has a date that parses. *)
Lemma Struct_nil_date f :
  validator.Struct wf f = [] ->
  snd (time.Parse time.layout_2006_01_02 (Form_PublishedDate f)) = None.
Proof.
  rewrite Struct_fields. intros H.
  apply app_eq_nil in H. destruct H as [_ H].
  apply app_eq_nil in H. destruct H as [_ H].
  apply app_eq_nil in H. destruct H as [H _].
  apply traverseField_nil in H.
  cbn [validator.tagsOf validator.FormTags find validator.FormField_eqb fst snd
       forallb validator.holds] in H.
  rewrite !andb_true_iff in H. destruct H as (_ & H & _).
  destruct (snd (time.Parse time.layout_2006_01_02 (Form_PublishedDate f)));
    [discriminate H | reflexivity].
Qed.

End ValidatorFacts.

(** ** The mapper *)

Lemma Form_ToModel_fields f :
  Form_ToModel f
  = mkBook uuid.Nil (Form_Title f) (Form_Author f)
      (fst (time.Parse time.layout_2006_01_02 (Form_PublishedDate f)))
      (Form_ImageURL f) (Form_Description f) time.zero time.zero
      (mkDeletedAt time.zero false).
Proof.
  unfold Form_ToModel.
  destruct (time.Parse time.layout_2006_01_02 (Form_PublishedDate f)). reflexivity.
Qed.

(** The date of a form that is a calendar date comes back from the DTO. *)
Lemma ToDto_ToModel_date f :
  calendar.isDate (Form_PublishedDate f) = true ->
  DTO_PublishedDate (Book_ToDto (Form_ToModel f)) = Form_PublishedDate f.
Proof.
  intros H. apply Parse_ok_isDate in H.
  rewrite Form_ToModel_fields. cbn [Book_ToDto DTO_PublishedDate Book_PublishedDate].
  destruct (time.Parse time.layout_2006_01_02 (Form_PublishedDate f)) as [t o] eqn:E.
  cbn [snd] in H. subst o. cbn [fst]. apply Format_Parse. exact E.
Qed.

Lemma slice_set_app {A : Type} (done : list A) y rest x :
  slice_set (done ++ y :: rest) (Datatypes.length done) x = (done ++ x :: rest)%list.
Proof.
  induction done as [|z done IH]; cbn [slice_set Datatypes.length app].
  - reflexivity.
  - rewrite IH. reflexivity.
Qed.

(** The loop fills the slots from [i] on, one book each, and leaves the
    slots before [i] alone. *)
Lemma Books_ToDto_loop_spec bs : forall done,
  Books_ToDto_loop (Datatypes.length done) bs
    (done ++ repeat None (Datatypes.length bs))
  = (done ++ map (fun b => Some (Book_ToDto b)) bs)%list.
Proof.
  induction bs as [|v bs IH]; intros done;
    cbn [Books_ToDto_loop Datatypes.length repeat map].
  - reflexivity.
  - rewrite slice_set_app.
    replace (S (Datatypes.length done))
      with (Datatypes.length (done ++ [Some (Book_ToDto v)])%list)
      by (rewrite length_app; cbn [Datatypes.length]; lia).
    change (done ++ Some (Book_ToDto v) :: repeat None (Datatypes.length bs))%list
      with (done ++ [Some (Book_ToDto v)] ++ repeat None (Datatypes.length bs))%list.
    rewrite app_assoc, IH, <- app_assoc. reflexivity.
Qed.

(** [Books.ToDto] maps [ToDto] over the books, in order, with no nil left. *)
Lemma Books_ToDto_map bs :
  Books_ToDto bs = map (fun b => Some (Book_ToDto b)) bs.
Proof.
  unfold Books_ToDto. exact (Books_ToDto_loop_spec bs []).
Qed.

(** ** The handlers *)

Section HandlerFacts.

Variable env : Env.

Lemma Create_decode_failure r st n err :
  json_Decode env (Body r) = Err err ->
  serve env (Create env) r st n
  = [WriteHeader http.StatusInternalServerError;
     Write (RespBytes env RespJSONDecodeFailure)].
Proof.
  intros H. run. rewrite H. reflexivity.
Qed.

Lemma Update_decode_failure r st n id err :
  uuid_Parse env (chi_URLParam r "id") = Ok id ->
  json_Decode env (Body r) = Err err ->
  serve env (Update env) r st n
  = [WriteHeader http.StatusInternalServerError;
     Write (RespBytes env RespJSONDecodeFailure)].
Proof.
  intros Hid H. run. rewrite Hid, H. reflexivity.
Qed.


Lemma Create_valid r st n f res st' :
  json_Decode env (Body r) = Ok f ->
  validator_Struct env f = [] ->
  repo_Create env (set_ID (Form_ToModel f) (uuid_New env n)) st = (res, st') ->
  serve env (Create env) r st n
  = RepositoryCreate (set_ID (Form_ToModel f) (uuid_New env n))
    :: match res with
       | Ok _ => [WriteHeader http.StatusCreated]
       | Err _ => [WriteHeader http.StatusInternalServerError;
                   Write (RespBytes env RespDBDataInsertFailure)]
       end.
Proof.
  intros Hf Hv Hc. run. rewrite Hf. cbv zeta. rewrite Hv.
  cbn [fst snd trace store drawn app]. rewrite Hc. destruct res; reflexivity.
Qed.

Lemma Update_valid r st n id f res st' :
  uuid_Parse env (chi_URLParam r "id") = Ok id ->
  json_Decode env (Body r) = Ok f ->
  validator_Struct env f = [] ->
  repo_Update env (set_ID (Form_ToModel f) id) st = (res, st') ->
  serve env (Update env) r st n
  = RepositoryUpdate (set_ID (Form_ToModel f) id)
    :: match res with
       | Ok rows => if rows =? 0 then [WriteHeader http.StatusNotFound] else []
       | Err _ => [WriteHeader http.StatusInternalServerError;
                   Write (RespBytes env RespDBDataUpdateFailure)]
       end.
Proof.
  intros Hid Hf Hv Hu. run. rewrite Hid, Hf. cbv zeta. rewrite Hv.
  cbn [fst snd trace store drawn app]. rewrite Hu.
  destruct res as [rows|]; [destruct (rows =? 0)|]; reflexivity.
Qed.

Lemma Delete_parsed r st n id res st' :
  uuid_Parse env (chi_URLParam r "id") = Ok id ->
  repo_Delete env id st = (res, st') ->
  serve env (Delete env) r st n
  = RepositoryDelete id
    :: match res with
       | Ok rows => if rows =? 0 then [WriteHeader http.StatusNotFound] else []
       | Err _ => [WriteHeader http.StatusBadRequest;
                   Write (RespBytes env RespDBDataRemoveFailure)]
       end.
Proof.
  intros Hid Hd. run. rewrite Hid. cbn [fst snd trace store drawn app]. rewrite Hd.
  destruct res as [rows|]; [destruct (rows =? 0)|]; reflexivity.
Qed.

(** The encoder's bytes for [books.ToDto()] are the encoding of the books. *)
Lemma Encoder_bytes_Books books :
  Encoder_bytes env (DTOSlice (Books_ToDto books)) = Ok (Books_encoding env books).
Proof.
  unfold Encoder_bytes, Books_encoding. cbn [json_Marshal].
  rewrite Books_ToDto_map, map_map. reflexivity.
Qed.

Lemma Read_bad_id r st n err :
  uuid_Parse env (chi_URLParam r "id") = Err err ->
  serve env (Read env) r st n
  = [WriteHeader http.StatusBadRequest; Write (RespBytes env RespInvalidURLParamID)].
Proof.
  intros Hid. run. rewrite Hid. reflexivity.
Qed.

Lemma Read_parsed r st n id res st' :
  uuid_Parse env (chi_URLParam r "id") = Ok id ->
  repo_Read env id st = (res, st') ->
  serve env (Read env) r st n
  = RepositoryRead id
    :: match res with
       | Err err =>
           if eq_ErrRecordNotFound err then [WriteHeader http.StatusNotFound]
           else [WriteHeader http.StatusInternalServerError;
                 Write (RespBytes env RespDBDataAccessFailure)]
       | Ok book =>
           EncoderEncode (DTOValue (Book_ToDto book))
           :: Write (DTO_encoding env (Book_ToDto book))
           :: match w_Write env (DTO_encoding env (Book_ToDto book)) with
              | None => []
              | Some _ => [WriteHeader http.StatusInternalServerError;
                           Write (RespBytes env RespJSONEncodeFailure)]
              end
       end.
Proof.
  intros Hid Hr. run. rewrite Hid. cbn [fst snd trace store drawn app]. rewrite Hr.
  destruct res as [book|err].
  - cbv zeta. unfold Encoder_bytes, DTO_encoding. cbn [json_Marshal].
    cbn [fst snd trace store drawn app].
    destruct (w_Write env (json_MarshalDTO env (Book_ToDto book) ++ newline));
      reflexivity.
  - destruct (eq_ErrRecordNotFound err); reflexivity.
Qed.

Lemma List_listed r st n res st' :
  repo_List env st = (res, st') ->
  serve env (List env) r st n
  = RepositoryList
    :: match res with
       | Err _ => [WriteHeader http.StatusInternalServerError;
                   Write (RespBytes env RespDBDataAccessFailure)]
       | Ok [] => [Write "[]"]
       | Ok books =>
           EncoderEncode (DTOSlice (Books_ToDto books))
           :: Write (Books_encoding env books)
           :: match w_Write env (Books_encoding env books) with
              | None => []
              | Some _ => [WriteHeader http.StatusInternalServerError;
                           Write (RespBytes env RespJSONEncodeFailure)]
              end
       end.
Proof.
  intros Hl. run. rewrite Hl. destruct res as [[|b books]|err];
    cbn [Datatypes.length Nat.eqb]; try reflexivity.
  rewrite (Encoder_bytes_Books (b :: books)).
  cbn [fst snd trace store drawn app].
  destruct (w_Write env (Books_encoding env (b :: books))); reflexivity.
Qed.

End HandlerFacts.

Lemma append_empty_r (s : string) : s ++ "" = s.
Proof.
  induction s as [|c s IH]; cbn [append]; [reflexivity | rewrite IH; reflexivity].
Qed.

(** ** The claims *)

(** C1 (the code departs from the claim).  A Create or Update request whose
    body does not decode is answered through [e.ServerError]: the status is
    500, not the 400 of a client error.  The body is the fixed bytes of
    [RespJSONDecodeFailure], the same for every such request. *)
Theorem decode_failure_is_server_error env r st n err :
  json_Decode env (Body r) = Err err ->
  (http.statusCode (serve env (Create env) r st n) = http.StatusInternalServerError
   /\ http.statusCode (serve env (Create env) r st n) <> http.StatusBadRequest
   /\ http.body (serve env (Create env) r st n) = RespBytes env RespJSONDecodeFailure)
  /\ (forall id, uuid_Parse env (chi_URLParam r "id") = Ok id ->
      http.statusCode (serve env (Update env) r st n) = http.StatusInternalServerError
      /\ http.statusCode (serve env (Update env) r st n) <> http.StatusBadRequest
      /\ http.body (serve env (Update env) r st n) = RespBytes env RespJSONDecodeFailure).
Proof.
  intros H. split.
  - rewrite (Create_decode_failure env r st n err H).
    cbn [http.statusCode http.body]. rewrite append_empty_r.
    repeat split. discriminate.
  - intros id Hid. rewrite (Update_decode_failure env r st n id err Hid H).
    cbn [http.statusCode http.body]. rewrite append_empty_r.
    repeat split. discriminate.
Qed.

(** The failing input of C1: the body ["{"], sent to Create and to Update. *)
Lemma decode_failure_is_server_error_witness :
  json_Decode sample.env "{" = Err (errorString "invalid character")
  /\ http.statusCode (serve sample.env (Create sample.env) (mkRequest "{" []) [] 0) = 500
  /\ http.statusCode
       (serve sample.env (Update sample.env)
          (mkRequest "{" [("id", sample.someID)]) [] 0) = 500.
Proof.
  split; [reflexivity|].
  destruct (decode_failure_is_server_error sample.env
              (mkRequest "{" [("id", sample.someID)]) [] 0
              (errorString "invalid character") eq_refl) as [_ HU].
  split; [reflexivity|].
  exact (proj1 (HU _ eq_refl)).
Defined.

(** C2, as the code has it.  The rule [url] runs on an empty image URL too
    and fails on it: the image URL field is reported exactly when it is
    empty or not a well-formed URL, and always under the tag [url]. *)
Theorem ImageURL_reported_iff env f :
  (In (validator.mkFieldError validator.ImageURL validator.url) (validator_Struct env f)
   <-> Form_ImageURL f = "" \/ wellFormedURL env (Form_ImageURL f) = false)
  /\ (forall fe, In fe (validator_Struct env f) ->
        validator.Field fe = validator.ImageURL ->
        validator.FailedTag fe = validator.url).
Proof.
  unfold validator_Struct. rewrite Struct_fields. split.
  - rewrite !in_app_iff. split.
    + intros [H | [H | [H | H]]]; apply traverseField_In in H;
        destruct H as (HF & _ & HH); try discriminate HF.
      cbn [validator.FailedTag validator.holds] in HH. unfold validator.isURL in HH.
      destruct (Form_ImageURL f); cbn [validator.isEmpty] in HH; [now left | now right].
    + intros H. right. right. right.
      cbn [validator.tagsOf validator.FormTags find validator.FormField_eqb fst snd
           validator.traverseField validator.holds].
      unfold validator.isURL.
      destruct H as [-> | H]; cbn [validator.isEmpty].
      * now left.
      * destruct (Form_ImageURL f); cbn [validator.isEmpty]; [now left|].
        rewrite H. now left.
  - intros fe H HF. rewrite !in_app_iff in H.
    destruct H as [H | [H | [H | H]]]; apply traverseField_In in H;
      destruct H as (HF' & HT & _); rewrite HF in HF'; try discriminate HF'.
    cbn [validator.tagsOf validator.FormTags find validator.FormField_eqb fst snd In] in HT.
    destruct HT as [<- | []]. reflexivity.
Qed.

(** The claim C2 fails on a form that is in order but for its empty image
    URL: validation reports the image URL. *)
Lemma empty_ImageURL_is_rejected :
  Form_ImageURL sample.plainForm = ""
  /\ validator_Struct sample.env sample.plainForm
     = [validator.mkFieldError validator.ImageURL validator.url].
Proof.
  split; reflexivity.
Qed.

(** C3.  For a valid form, the DTO of its model has the form's title,
    author, image URL and description, and the form's published date
    whenever that is a date of the calendar written YYYY-MM-DD (which the
    date of a valid form always is). *)
Theorem ToDto_ToModel_roundtrip env f :
  validator_Struct env f = [] ->
  DTO_Title (Book_ToDto (Form_ToModel f)) = Form_Title f
  /\ DTO_Author (Book_ToDto (Form_ToModel f)) = Form_Author f
  /\ DTO_ImageURL (Book_ToDto (Form_ToModel f)) = Form_ImageURL f
  /\ DTO_Description (Book_ToDto (Form_ToModel f)) = Form_Description f
  /\ (calendar.isDate (Form_PublishedDate f) = true ->
      DTO_PublishedDate (Book_ToDto (Form_ToModel f)) = Form_PublishedDate f)
  /\ calendar.isDate (Form_PublishedDate f) = true.
Proof.
  intros Hvalid.
  repeat split; try (rewrite Form_ToModel_fields; reflexivity).
  - apply ToDto_ToModel_date.
  - apply Parse_ok_isDate. exact (Struct_nil_date (wellFormedURL env) f Hvalid).
Qed.

Lemma ToDto_ToModel_roundtrip_witness :
  validator_Struct sample.env sample.goForm = []
  /\ DTO_PublishedDate (Book_ToDto (Form_ToModel sample.goForm)) = "2015-10-26".
Proof.
  split; [reflexivity|].
  destruct (ToDto_ToModel_roundtrip sample.env sample.goForm eq_refl)
    as (_ & _ & _ & _ & Hdate & Hcal).
  exact (Hdate Hcal).
Defined.

(** C4.  [Form.ToModel] returns a model for every form: title, author,
    image URL and description are the form's, the identifier, the two
    timestamps and the deletion mark are zero values, and when the
    published date does not parse the model's date is the zero time
    (January 1 of year 1), with no error raised. *)
Theorem Form_ToModel_total f :
  exists b,
    Form_ToModel f = b
    /\ Book_Title b = Form_Title f
    /\ Book_Author b = Form_Author f
    /\ Book_ImageURL b = Form_ImageURL f
    /\ Book_Description b = Form_Description f
    /\ Book_ID b = uuid.Nil
    /\ Book_CreatedAt b = time.zero
    /\ Book_UpdatedAt b = time.zero
    /\ Book_DeletedAt b = mkDeletedAt time.zero false
    /\ (snd (time.Parse time.layout_2006_01_02 (Form_PublishedDate f)) <> None ->
        Book_PublishedDate b = time.zero)
    /\ (calendar.isDate (Form_PublishedDate f) = false ->
        Book_PublishedDate b = time.zero)
    /\ time.Format time.zero time.layout_2006_01_02 = "0001-01-01".
Proof.
  exists (Form_ToModel f). rewrite Form_ToModel_fields.
  cbn [Book_Title Book_Author Book_ImageURL Book_Description Book_ID Book_CreatedAt
       Book_UpdatedAt Book_DeletedAt Book_PublishedDate].
  assert (Hzero : snd (time.Parse time.layout_2006_01_02 (Form_PublishedDate f)) <> None ->
                  fst (time.Parse time.layout_2006_01_02 (Form_PublishedDate f)) = time.zero).
  { destruct (time.Parse time.layout_2006_01_02 (Form_PublishedDate f)) as [t [err|]] eqn:E;
      cbn [fst snd]; intros H.
    - exact (Parse_error_zero _ _ _ E).
    - now destruct H. }
  repeat split; try exact Hzero.
  intros H. apply Hzero. intros HP. apply Parse_ok_isDate in HP.
  rewrite HP in H. discriminate H.
Qed.

(** C5, as the code has it.  When the repository lists no record, the List
    handler writes the two bytes ["[]"] (neither [null] nor nothing) and
    never calls the JSON encoder.  When it lists records, the encoder is
    called on the DTOs of the records, one for each and in their order,
    and its encoding of them (the JSON array of their texts, ended by a
    newline) is handed to the response writer; when that write succeeds,
    the encoding is the whole body. *)
Theorem List_body env r st n books st' :
  repo_List env st = (Ok books, st') ->
  (books = [] ->
     serve env (List env) r st n = [RepositoryList; Write "[]"]
     /\ http.body (serve env (List env) r st n) = "[]"
     /\ String.length (http.body (serve env (List env) r st n)) = 2%nat
     /\ http.body (serve env (List env) r st n) <> "null"
     /\ http.body (serve env (List env) r st n) <> ""
     /\ encoderCalled (serve env (List env) r st n) = false)
  /\ (books <> [] ->
      Encoder_bytes env (DTOSlice (map (fun b => Some (Book_ToDto b)) books))
      = Ok (Books_encoding env books)
      /\ In (EncoderEncode (DTOSlice (map (fun b => Some (Book_ToDto b)) books)))
            (serve env (List env) r st n)
      /\ In (Write (Books_encoding env books)) (serve env (List env) r st n)
      /\ (w_Write env (Books_encoding env books) = None ->
          http.body (serve env (List env) r st n) = Books_encoding env books
          /\ http.statusCode (serve env (List env) r st n) = http.StatusOK)).
Proof.
  intros HL. rewrite (List_listed env r st n _ _ HL). split.
  - intros ->. repeat split; discriminate.
  - intros Hne. destruct books as [|b books]; [now destruct Hne|].
    rewrite <- Books_ToDto_map. split; [apply Encoder_bytes_Books|].
    split; [right; left; reflexivity|].
    split; [right; right; left; reflexivity|].
    intros ->. cbn [http.body http.statusCode].
    rewrite append_empty_r. split; reflexivity.
Qed.

(** One run over a store with a record in it and one over the empty store. *)
Lemma List_body_witness :
  repo_List sample.env [sample.goBook] = (Ok [sample.goBook], [sample.goBook])
  /\ http.body (serve sample.env (List sample.env) (mkRequest "" []) [sample.goBook] 0)
     = Books_encoding sample.env [sample.goBook]
  /\ repo_List sample.env [] = (Ok [], [])
  /\ http.body (serve sample.env (List sample.env) (mkRequest "" []) [] 0) = "[]".
Proof.
  assert (Hne : [sample.goBook] <> []) by discriminate.
  split; [reflexivity|]. split.
  - exact (proj1 (proj2 (proj2 (proj2 (proj2 (List_body sample.env (mkRequest "" [])
                                               [sample.goBook] 0 [sample.goBook]
                                               [sample.goBook] eq_refl) Hne)))
                   eq_refl)).
  - split; [reflexivity|].
    exact (proj1 (proj2 (proj1 (List_body sample.env (mkRequest "" []) [] 0 [] []
                                  eq_refl) eq_refl))).
Defined.

(** The claim C5 fails when the write of the encoding fails (the client has
    gone): the handler goes on writing, and what it has handed to the
    response writer is the encoding followed by an error body. *)
Lemma List_body_after_a_failed_write :
  repo_List fixtures.envBroken [sample.goBook] = (Ok [sample.goBook], [sample.goBook])
  /\ http.body
       (serve fixtures.envBroken (List fixtures.envBroken) (mkRequest "" [])
          [sample.goBook] 0)
     = Books_encoding fixtures.envBroken [sample.goBook] ++ "json encode failure"
  /\ http.body
       (serve fixtures.envBroken (List fixtures.envBroken) (mkRequest "" [])
          [sample.goBook] 0)
     <> Books_encoding fixtures.envBroken [sample.goBook].
Proof.
  split; [reflexivity|]. split; [reflexivity|].
  apply String.eqb_neq. vm_compute. reflexivity.
Qed.



(** C7.  An Update with an identifier that parses and a valid form hands
    the repository one model, and its identifier is the one of the path,
    whatever the body decodes to. *)
Theorem Update_identity_from_path env r st n id f :
  uuid_Parse env (chi_URLParam r "id") = Ok id ->
  json_Decode env (Body r) = Ok f ->
  validator_Struct env f = [] ->
  updatedModels (serve env (Update env) r st n) = [set_ID (Form_ToModel f) id]
  /\ (forall b, In b (updatedModels (serve env (Update env) r st n)) -> Book_ID b = id).
Proof.
  intros Hid Hf Hv.
  destruct (repo_Update env (set_ID (Form_ToModel f) id) st) as [res st'] eqn:HU.
  rewrite (Update_valid env r st n id f res st' Hid Hf Hv HU).
  assert (H : updatedModels
                (RepositoryUpdate (set_ID (Form_ToModel f) id)
                 :: match res with
                    | Ok rows => if rows =? 0 then [WriteHeader http.StatusNotFound] else []
                    | Err _ => [WriteHeader http.StatusInternalServerError;
                                Write (RespBytes env RespDBDataUpdateFailure)]
                    end)
              = [set_ID (Form_ToModel f) id]).
  { destruct res as [rows|]; [destruct (rows =? 0)|]; reflexivity. }
  rewrite H. split; [reflexivity|].
  intros b [<- | []]. reflexivity.
Qed.

Lemma Update_identity_from_path_witness :
  uuid_Parse sample.env sample.someID = Ok 0x123e4567e89b12d3a456426614174000%N
  /\ json_Decode sample.env sample.goBody = Ok sample.goForm
  /\ validator_Struct sample.env sample.goForm = []
  /\ map Book_ID
       (updatedModels
          (serve sample.env (Update sample.env)
             (mkRequest sample.goBody [("id", sample.someID)]) [] 0))
     = [0x123e4567e89b12d3a456426614174000%N].
Proof.
  repeat (split; [reflexivity|]).
  rewrite (proj1 (Update_identity_from_path sample.env
                    (mkRequest sample.goBody [("id", sample.someID)]) [] 0
                    _ sample.goForm eq_refl eq_refl eq_refl)).
  reflexivity.
Defined.

(** C8.  When the repository call of Update or of Delete succeeds, zero
    rows are answered with 404, and any other count with a success that
    has no body: nothing is written at all, which is a 200. *)
Theorem rows_affected_response env r st n id :
  uuid_Parse env (chi_URLParam r "id") = Ok id ->
  (forall f rows st',
     json_Decode env (Body r) = Ok f ->
     validator_Struct env f = [] ->
     repo_Update env (set_ID (Form_ToModel f) id) st = (Ok rows, st') ->
     (rows = 0 ->
        http.statusCode (serve env (Update env) r st n) = http.StatusNotFound
        /\ http.body (serve env (Update env) r st n) = "")
     /\ (rows <> 0 ->
         serve env (Update env) r st n = [RepositoryUpdate (set_ID (Form_ToModel f) id)]
         /\ http.statusCode (serve env (Update env) r st n) = http.StatusOK
         /\ http.body (serve env (Update env) r st n) = ""))
  /\ (forall rows st',
        repo_Delete env id st = (Ok rows, st') ->
        (rows = 0 ->
           http.statusCode (serve env (Delete env) r st n) = http.StatusNotFound
           /\ http.body (serve env (Delete env) r st n) = "")
        /\ (rows <> 0 ->
            serve env (Delete env) r st n = [RepositoryDelete id]
            /\ http.statusCode (serve env (Delete env) r st n) = http.StatusOK
            /\ http.body (serve env (Delete env) r st n) = "")).
Proof.
  intros Hid. split.
  - intros f rows st' Hf Hv HU.
    rewrite (Update_valid env r st n id f _ _ Hid Hf Hv HU).
    split; intros H.
    + subst rows. split; reflexivity.
    + apply Z.eqb_neq in H. rewrite H. repeat split.
  - intros rows st' HD.
    rewrite (Delete_parsed env r st n id _ _ Hid HD).
    split; intros H.
    + subst rows. split; reflexivity.
    + apply Z.eqb_neq in H. rewrite H. repeat split.
Qed.

Lemma rows_affected_response_witness :
  uuid_Parse sample.env sample.someID = Ok 0x123e4567e89b12d3a456426614174000%N
  /\ http.statusCode
       (serve sample.env (Update sample.env)
          (mkRequest sample.goBody [("id", sample.someID)]) [] 0) = 404
  /\ http.statusCode
       (serve sample.env (Delete sample.env)
          (mkRequest "" [("id", sample.someID)]) [sample.goBook] 0) = 200.
Proof.
  split; [reflexivity|]. split.
  - exact (proj1 (proj1 (proj1 (rows_affected_response sample.env
                                  (mkRequest sample.goBody [("id", sample.someID)]) [] 0
                                  _ eq_refl)
                           sample.goForm 0 [] eq_refl eq_refl eq_refl) eq_refl)).
  - assert (H : 1 <> 0) by discriminate.
    exact (proj1 (proj2 (proj2 (proj2 (rows_affected_response sample.env
                                         (mkRequest "" [("id", sample.someID)])
                                         [sample.goBook] 0 _ eq_refl)
                                  1 [sample.markDeleted sample.goBook] eq_refl) H))).
Defined.

(** C9.  Whenever the repository's Create returns no error, the handler
    answers 201 with no body, whatever the number of rows it reports,
    zero included. *)
Theorem Create_ignores_rows env r st n f rows st' :
  json_Decode env (Body r) = Ok f ->
  validator_Struct env f = [] ->
  repo_Create env (set_ID (Form_ToModel f) (uuid_New env n)) st = (Ok rows, st') ->
  serve env (Create env) r st n
  = [RepositoryCreate (set_ID (Form_ToModel f) (uuid_New env n));
     WriteHeader http.StatusCreated]
  /\ http.statusCode (serve env (Create env) r st n) = http.StatusCreated
  /\ http.body (serve env (Create env) r st n) = "".
Proof.
  intros Hf Hv HC. rewrite (Create_valid env r st n f _ _ Hf Hv HC).
  repeat split.
Qed.

(** A repository that reports zero rows and no error: Create answers 201. *)
Lemma Create_ignores_rows_witness :
  json_Decode sample.envIdle sample.goBody = Ok sample.goForm
  /\ validator_Struct sample.envIdle sample.goForm = []
  /\ repo_Create sample.envIdle (set_ID (Form_ToModel sample.goForm) 1%N) tt = (Ok 0, tt)
  /\ http.statusCode
       (serve sample.envIdle (Create sample.envIdle) (mkRequest sample.goBody []) tt 0)
     = 201.
Proof.
  repeat (split; [reflexivity|]).
  exact (proj1 (proj2 (Create_ignores_rows sample.envIdle (mkRequest sample.goBody [])
                         tt 0 sample.goForm 0 tt eq_refl eq_refl eq_refl))).
Defined.

(** C10.  Read answers 404 exactly when the repository's error is the
    value [ErrRecordNotFound] itself; every other error, a not-found error
    wrapped in another included, is answered with the server-side
    data-access failure. *)
Theorem Read_not_found_only_for_sentinel env r st n id res st' :
  uuid_Parse env (chi_URLParam r "id") = Ok id ->
  repo_Read env id st = (res, st') ->
  (http.statusCode (serve env (Read env) r st n) = http.StatusNotFound
   <-> res = Err ErrRecordNotFound)
  /\ (res = Err ErrRecordNotFound ->
      serve env (Read env) r st n = [RepositoryRead id; WriteHeader http.StatusNotFound])
  /\ (forall err,
        res = Err err -> err <> ErrRecordNotFound ->
        serve env (Read env) r st n
        = [RepositoryRead id; WriteHeader http.StatusInternalServerError;
           Write (RespBytes env RespDBDataAccessFailure)])
  /\ (forall msg inner,
        res = Err (wrapError msg inner) ->
        http.statusCode (serve env (Read env) r st n) = http.StatusInternalServerError).
Proof.
  intros Hid HR. rewrite (Read_parsed env r st n id res st' Hid HR).
  repeat split.
  - destruct res as [book|err].
    + destruct (w_Write env (DTO_encoding env (Book_ToDto book)));
        cbn [http.statusCode]; discriminate.
    + destruct err; cbn [eq_ErrRecordNotFound http.statusCode];
        (reflexivity || discriminate).
  - intros ->. reflexivity.
  - intros ->. reflexivity.
  - intros err -> Hne. destruct err; [now destruct Hne | reflexivity | reflexivity].
  - intros msg inner ->. reflexivity.
Qed.

(** A not-found error wrapped in another one: the answer is 500. *)
Lemma Read_not_found_only_for_sentinel_witness :
  uuid_Parse sample.envDown sample.someID = Ok 0x123e4567e89b12d3a456426614174000%N
  /\ repo_Read sample.envDown 0x123e4567e89b12d3a456426614174000%N tt
     = (Err (wrapError "query failed" ErrRecordNotFound), tt)
  /\ errors_Is_ErrRecordNotFound (wrapError "query failed" ErrRecordNotFound) = true
  /\ http.statusCode
       (serve sample.envDown (Read sample.envDown)
          (mkRequest "" [("id", sample.someID)]) tt 0) = 500.
Proof.
  repeat (split; [reflexivity|]).
  exact (proj2 (proj2 (proj2 (Read_not_found_only_for_sentinel sample.envDown
                                (mkRequest "" [("id", sample.someID)]) tt 0 _ _ tt
                                eq_refl eq_refl)))
           "query failed" ErrRecordNotFound eq_refl).
Defined.

(** ** More of the handlers and the mapper *)

(** *** Requests that never reach the repository *)

(** X1.  When the identifier of the path does not parse, Read, Update and
    Delete answer 400 with the invalid-identifier body and stop there: the
    repository is not called, the store is as it was, and Update does not
    look at the body. *)
Theorem bad_id_stops_before_the_store env r st n err :
  uuid_Parse env (chi_URLParam r "id") = Err err ->
  forall h, In h [Read env; Update env; Delete env] ->
    serve env h r st n
    = [WriteHeader http.StatusBadRequest; Write (RespBytes env RespInvalidURLParamID)]
    /\ repositoryCalls (serve env h r st n) = []
    /\ storeAfter env h r st n = st.
Proof.
  intros Hid h [<- | [<- | [<- | []]]]; run_world; rewrite Hid; repeat split.
Qed.

Lemma bad_id_stops_before_the_store_witness :
  uuid_Parse sample.env (chi_URLParam fixtures.noIDRequest "id")
  = Err (errorString "invalid UUID length")
  /\ http.statusCode
       (serve sample.env (Update sample.env) fixtures.noIDRequest [sample.goBook] 0) = 400
  /\ storeAfter sample.env (Delete sample.env) fixtures.noIDRequest [sample.goBook] 0
     = [sample.goBook].
Proof.
  split; [reflexivity|].
  pose proof (bad_id_stops_before_the_store sample.env fixtures.noIDRequest
                [sample.goBook] 0 _ eq_refl) as H.
  split.
  - destruct (H (Update sample.env) (or_intror (or_introl eq_refl))) as [-> _].
    reflexivity.
  - exact (proj2 (proj2 (H (Delete sample.env)
                           (or_intror (or_intror (or_introl eq_refl)))))).
Defined.

(** X2.  A body that decodes to a form with a violation never reaches the
    repository, in Create and, once the identifier has parsed, in Update:
    the answer is 422 with the marshalled violations, or 500 with the
    encode-failure body when they do not marshal; no repository call is
    made, the store is as it was and no identifier is drawn. *)
Theorem invalid_form_stops_before_the_store env r st n f :
  json_Decode env (Body r) = Ok f ->
  validator_Struct env f <> [] ->
  forall h,
    h = Create env
    \/ (h = Update env /\ exists id, uuid_Parse env (chi_URLParam r "id") = Ok id) ->
    serve env h r st n
    = match json_Marshal env (ErrResponseValue (ToErrResponse (validator_Struct env f))) with
      | Ok bytes => [WriteHeader http.StatusUnprocessableEntity; Write bytes]
      | Err _ => [WriteHeader http.StatusInternalServerError;
                  Write (RespBytes env RespJSONEncodeFailure)]
      end
    /\ repositoryCalls (serve env h r st n) = []
    /\ storeAfter env h r st n = st
    /\ drawnAfter env h r st n = n.
Proof.
  intros Hf Hv h [-> | [-> [id Hid]]]; run_world; rewrite ?Hid, Hf; cbv zeta;
    destruct (validator_Struct env f) as [|fe errs]; try (now destruct Hv);
    destruct (json_Marshal env (ErrResponseValue (ToErrResponse (fe :: errs))));
    repeat split.
Qed.

Lemma invalid_form_stops_before_the_store_witness :
  json_Decode sample.env (Body fixtures.badRequest) = Ok sample.badForm
  /\ validator_Struct sample.env sample.badForm <> []
  /\ http.statusCode
       (serve sample.env (Update sample.env) fixtures.badRequest [sample.goBook] 0) = 422
  /\ storeAfter sample.env (Update sample.env) fixtures.badRequest [sample.goBook] 0
     = [sample.goBook].
Proof.
  assert (Hv : validator_Struct sample.env sample.badForm <> []) by discriminate.
  split; [reflexivity|]. split; [exact Hv|].
  destruct (invalid_form_stops_before_the_store sample.env fixtures.badRequest
              [sample.goBook] 0 sample.badForm eq_refl Hv
              (Update sample.env) (or_intror (conj eq_refl (ex_intro _ _ eq_refl))))
    as (Htrace & _ & Hstore & _).
  split; [rewrite Htrace; reflexivity | exact Hstore].
Defined.

(** X16.  A body that does not decode stops Create, and Update once the
    identifier has parsed, before anything else happens: no validation
    answer, no repository call, the store as it was, no identifier drawn. *)
Theorem malformed_body_stops_before_the_store env r st n err :
  json_Decode env (Body r) = Err err ->
  forall h,
    h = Create env
    \/ (h = Update env /\ exists id, uuid_Parse env (chi_URLParam r "id") = Ok id) ->
    repositoryCalls (serve env h r st n) = []
    /\ headerCalls (serve env h r st n) = [http.StatusInternalServerError]
    /\ storeAfter env h r st n = st
    /\ drawnAfter env h r st n = n.
Proof.
  intros Hf h [-> | [-> [id Hid]]]; run_world; rewrite ?Hid, Hf; repeat split.
Qed.

Lemma malformed_body_stops_before_the_store_witness :
  json_Decode sample.env "{" = Err (errorString "invalid character")
  /\ storeAfter sample.env (Create sample.env) (mkRequest "{" []) [sample.goBook] 3
     = [sample.goBook]
  /\ drawnAfter sample.env (Create sample.env) (mkRequest "{" []) [sample.goBook] 3
     = 3%nat.
Proof.
  split; [reflexivity|].
  destruct (malformed_body_stops_before_the_store sample.env (mkRequest "{" [])
              [sample.goBook] 3 _ eq_refl (Create sample.env) (or_introl eq_refl))
    as (_ & _ & Hstore & Hdrawn).
  split; [exact Hstore | exact Hdrawn].
Defined.

(** *** What reaches the repository *)

(** X3.  Every model that Create or Update hands to the repository comes
    from a body that decoded to a valid form: its title, author, image URL
    and description are the form's, and its date is the one the form names
    (formatting it gives the form's string back), so the zero date that
    [ToModel] falls back to on a date that does not parse is never stored
    in place of a date. *)
Theorem stored_models_come_from_valid_forms env r st n b :
  In b (createdModels (serve env (Create env) r st n))
  \/ In b (updatedModels (serve env (Update env) r st n)) ->
  exists f,
    json_Decode env (Body r) = Ok f
    /\ validator_Struct env f = []
    /\ Book_Title b = Form_Title f
    /\ Book_Author b = Form_Author f
    /\ Book_ImageURL b = Form_ImageURL f
    /\ Book_Description b = Form_Description f
    /\ time.Format (Book_PublishedDate b) time.layout_2006_01_02 = Form_PublishedDate f.
Proof.
  assert (Hmodel : forall f id,
             validator_Struct env f = [] ->
             Book_Title (set_ID (Form_ToModel f) id) = Form_Title f
             /\ Book_Author (set_ID (Form_ToModel f) id) = Form_Author f
             /\ Book_ImageURL (set_ID (Form_ToModel f) id) = Form_ImageURL f
             /\ Book_Description (set_ID (Form_ToModel f) id) = Form_Description f
             /\ time.Format (Book_PublishedDate (set_ID (Form_ToModel f) id))
                  time.layout_2006_01_02 = Form_PublishedDate f).
  { intros f id Hv. rewrite Form_ToModel_fields.
    cbn [set_ID Book_Title Book_Author Book_ImageURL Book_Description Book_PublishedDate].
    repeat split.
    pose proof (Struct_nil_date (wellFormedURL env) f Hv) as HP.
    destruct (time.Parse time.layout_2006_01_02 (Form_PublishedDate f)) as [t o] eqn:E.
    cbn [snd] in HP. subst o. cbn [fst]. exact (Format_Parse _ _ E). }
  intros [H | H]; revert H; run.
  - destruct (json_Decode env (Body r)) as [f|] eqn:Hf; [|intros []].
    cbv zeta. destruct (validator_Struct env f) as [|fe errs] eqn:Hv.
    + cbn [fst snd trace store drawn app].
      destruct (repo_Create env (set_ID (Form_ToModel f) (uuid_New env n)) st)
        as [[rows|err] st']; cbn [createdModels flat_map app In];
        intros [<- | []]; exists f; (split; [reflexivity|]); (split; [exact Hv|]);
        apply Hmodel; exact Hv.
    + destruct (json_Marshal env (ErrResponseValue (ToErrResponse (fe :: errs))));
        intros [].
  - destruct (uuid_Parse env (chi_URLParam r "id")) as [id|]; [|intros []].
    destruct (json_Decode env (Body r)) as [f|] eqn:Hf; [|intros []].
    cbv zeta. destruct (validator_Struct env f) as [|fe errs] eqn:Hv.
    + cbn [fst snd trace store drawn app].
      destruct (repo_Update env (set_ID (Form_ToModel f) id) st)
        as [[rows|err] st']; [destruct (rows =? 0)|];
        cbn [updatedModels flat_map app In];
        intros [<- | []]; exists f; (split; [reflexivity|]); (split; [exact Hv|]);
        apply Hmodel; exact Hv.
    + destruct (json_Marshal env (ErrResponseValue (ToErrResponse (fe :: errs))));
        intros [].
Qed.

Lemma stored_models_come_from_valid_forms_witness :
  In sample.goBook
     (updatedModels (serve sample.env (Update sample.env) fixtures.goRequest [] 0))
  /\ time.Format (Book_PublishedDate sample.goBook) time.layout_2006_01_02 = "2015-10-26".
Proof.
  assert (H : In sample.goBook
                 (updatedModels
                    (serve sample.env (Update sample.env) fixtures.goRequest [] 0)))
    by (left; reflexivity).
  split; [exact H|].
  destruct (stored_models_come_from_valid_forms sample.env fixtures.goRequest [] 0
              sample.goBook (or_intror H)) as (f & Hf & _ & _ & _ & _ & _ & Hdate).
  injection Hf as <-. exact Hdate.
Defined.

(** X4.  On its valid path Create draws one identifier, gives it to the
    model of the form and hands that model to the repository, once; the
    store it leaves is the one the repository returns.  The identifier is
    the one [uuid.New] gives: nothing of the request goes into it. *)
Theorem Create_stores_a_fresh_identifier env r st n f res st' :
  json_Decode env (Body r) = Ok f ->
  validator_Struct env f = [] ->
  repo_Create env (set_ID (Form_ToModel f) (uuid_New env n)) st = (res, st') ->
  repositoryCalls (serve env (Create env) r st n)
  = [RepositoryCreate (set_ID (Form_ToModel f) (uuid_New env n))]
  /\ (forall b, In b (createdModels (serve env (Create env) r st n)) ->
        Book_ID b = uuid_New env n)
  /\ drawnAfter env (Create env) r st n = S n
  /\ storeAfter env (Create env) r st n = st'.
Proof.
  intros Hf Hv HC. run_world. rewrite Hf. cbv zeta. rewrite Hv.
  cbn [fst snd trace store drawn app]. rewrite HC.
  destruct res as [rows|err]; repeat split; intros b [<- | []]; reflexivity.
Qed.

Lemma Create_stores_a_fresh_identifier_witness :
  json_Decode sample.env (Body fixtures.goRequest) = Ok sample.goForm
  /\ validator_Struct sample.env sample.goForm = []
  /\ storeAfter sample.env (Create sample.env) fixtures.goRequest [] 0
     = [set_ID (Form_ToModel sample.goForm) 1%N].
Proof.
  repeat (split; [reflexivity|]).
  exact (proj2 (proj2 (proj2 (Create_stores_a_fresh_identifier sample.env
                                fixtures.goRequest [] 0 sample.goForm _ _
                                eq_refl eq_refl eq_refl)))).
Defined.

(** *** Failures of the collaborators *)

(** X5.  A failure of the repository is answered with a fixed body that
    says which operation failed and nothing of the error itself: with the
    status 500 in List, Create and Update, and with the status 400 in
    Delete. *)
Theorem storage_failure_responses env r st n :
  (forall err st',
     repo_List env st = (Err err, st') ->
     serve env (List env) r st n
     = [RepositoryList; WriteHeader http.StatusInternalServerError;
        Write (RespBytes env RespDBDataAccessFailure)])
  /\ (forall f err st',
        json_Decode env (Body r) = Ok f ->
        validator_Struct env f = [] ->
        repo_Create env (set_ID (Form_ToModel f) (uuid_New env n)) st = (Err err, st') ->
        serve env (Create env) r st n
        = [RepositoryCreate (set_ID (Form_ToModel f) (uuid_New env n));
           WriteHeader http.StatusInternalServerError;
           Write (RespBytes env RespDBDataInsertFailure)])
  /\ (forall id f err st',
        uuid_Parse env (chi_URLParam r "id") = Ok id ->
        json_Decode env (Body r) = Ok f ->
        validator_Struct env f = [] ->
        repo_Update env (set_ID (Form_ToModel f) id) st = (Err err, st') ->
        serve env (Update env) r st n
        = [RepositoryUpdate (set_ID (Form_ToModel f) id);
           WriteHeader http.StatusInternalServerError;
           Write (RespBytes env RespDBDataUpdateFailure)])
  /\ (forall id err st',
        uuid_Parse env (chi_URLParam r "id") = Ok id ->
        repo_Delete env id st = (Err err, st') ->
        serve env (Delete env) r st n
        = [RepositoryDelete id; WriteHeader http.StatusBadRequest;
           Write (RespBytes env RespDBDataRemoveFailure)]).
Proof.
  repeat split.
  - intros err st' HL. run. rewrite HL. reflexivity.
  - intros f err st' Hf Hv HC. run. rewrite Hf. cbv zeta. rewrite Hv.
    cbn [fst snd trace store drawn app]. rewrite HC. reflexivity.
  - intros id f err st' Hid Hf Hv HU. run. rewrite Hid, Hf. cbv zeta. rewrite Hv.
    cbn [fst snd trace store drawn app]. rewrite HU. reflexivity.
  - intros id err st' Hid HD. run. rewrite Hid.
    cbn [fst snd trace store drawn app]. rewrite HD. reflexivity.
Qed.

Lemma storage_failure_responses_witness :
  http.statusCode
    (serve sample.envDown (Update sample.envDown) fixtures.goRequest tt 0) = 500
  /\ http.statusCode
       (serve sample.envDown (Delete sample.envDown) fixtures.goRequest tt 0) = 400.
Proof.
  destruct (storage_failure_responses sample.envDown fixtures.goRequest tt 0)
    as (_ & _ & HU & HD).
  split.
  - rewrite (HU _ sample.goForm sample.down tt eq_refl eq_refl eq_refl eq_refl).
    reflexivity.
  - rewrite (HD _ sample.down tt eq_refl eq_refl). reflexivity.
Defined.

(** X6.  When the write of the encoded body fails in List or in Read, the
    handler goes on to [e.ServerError]: [WriteHeader(500)] and the
    encode-failure body come after the body write, too late to change the
    status, which stays 200. *)
Theorem write_failure_after_the_body env r st n :
  (forall b books st' err,
     repo_List env st = (Ok (b :: books), st') ->
     w_Write env (Books_encoding env (b :: books)) = Some err ->
     serve env (List env) r st n
     = [RepositoryList; EncoderEncode (DTOSlice (Books_ToDto (b :: books)));
        Write (Books_encoding env (b :: books));
        WriteHeader http.StatusInternalServerError;
        Write (RespBytes env RespJSONEncodeFailure)]
     /\ http.statusCode (serve env (List env) r st n) = http.StatusOK
     /\ headersFirst (serve env (List env) r st n) = false)
  /\ (forall id book st' err,
        uuid_Parse env (chi_URLParam r "id") = Ok id ->
        repo_Read env id st = (Ok book, st') ->
        w_Write env (DTO_encoding env (Book_ToDto book)) = Some err ->
        serve env (Read env) r st n
        = [RepositoryRead id; EncoderEncode (DTOValue (Book_ToDto book));
           Write (DTO_encoding env (Book_ToDto book));
           WriteHeader http.StatusInternalServerError;
           Write (RespBytes env RespJSONEncodeFailure)]
        /\ http.statusCode (serve env (Read env) r st n) = http.StatusOK
        /\ headersFirst (serve env (Read env) r st n) = false).
Proof.
  split.
  - intros b books st' err HL HW. rewrite (List_listed env r st n _ _ HL), HW.
    repeat split.
  - intros id book st' err Hid HR HW.
    rewrite (Read_parsed env r st n id _ _ Hid HR), HW. repeat split.
Qed.

Lemma write_failure_after_the_body_witness :
  repo_Read fixtures.envBroken 0x123e4567e89b12d3a456426614174000%N [sample.goBook]
  = (Ok sample.goBook, [sample.goBook])
  /\ headerCalls
       (serve fixtures.envBroken (Read fixtures.envBroken) fixtures.goRequest
          [sample.goBook] 0) = [500]
  /\ http.statusCode
       (serve fixtures.envBroken (Read fixtures.envBroken) fixtures.goRequest
          [sample.goBook] 0) = 200.
Proof.
  split; [reflexivity|].
  destruct (proj2 (write_failure_after_the_body fixtures.envBroken fixtures.goRequest
                     [sample.goBook] 0)
              _ sample.goBook [sample.goBook] _ eq_refl eq_refl eq_refl)
    as (Htrace & Hstatus & _).
  split; [rewrite Htrace; reflexivity | exact Hstatus].
Defined.

(** *** Read, when it finds the record *)

(** X7.  When the repository finds the record and the write of the body
    succeeds, Read makes that one repository call, writes no header (which
    is a 200) and writes as the body the encoding of the DTO of the record
    found; the identifier in the DTO is the record's own. *)
Theorem Read_found env r st n id book st' :
  uuid_Parse env (chi_URLParam r "id") = Ok id ->
  repo_Read env id st = (Ok book, st') ->
  w_Write env (DTO_encoding env (Book_ToDto book)) = None ->
  serve env (Read env) r st n
  = [RepositoryRead id; EncoderEncode (DTOValue (Book_ToDto book));
     Write (DTO_encoding env (Book_ToDto book))]
  /\ http.statusCode (serve env (Read env) r st n) = http.StatusOK
  /\ http.body (serve env (Read env) r st n) = DTO_encoding env (Book_ToDto book)
  /\ headerCalls (serve env (Read env) r st n) = []
  /\ DTO_ID (Book_ToDto book) = uuid.String_ (Book_ID book)
  /\ storeAfter env (Read env) r st n = st'.
Proof.
  intros Hid HR HW. rewrite (Read_parsed env r st n id _ _ Hid HR), HW.
  cbn [http.statusCode http.body headerCalls flat_map app].
  rewrite append_empty_r. repeat split.
  run_world. rewrite Hid. cbn [fst snd trace store drawn app]. rewrite HR.
  cbv zeta. unfold Encoder_bytes. cbn [json_Marshal].
  cbn [fst snd trace store drawn app]. unfold DTO_encoding in HW. rewrite HW.
  reflexivity.
Qed.

Lemma Read_found_witness :
  uuid_Parse sample.env (chi_URLParam fixtures.goRequest "id")
  = Ok 0x123e4567e89b12d3a456426614174000%N
  /\ repo_Read sample.env 0x123e4567e89b12d3a456426614174000%N [sample.goBook]
     = (Ok sample.goBook, [sample.goBook])
  /\ DTO_ID (Book_ToDto sample.goBook) = sample.someID
  /\ http.body
       (serve sample.env (Read sample.env) fixtures.goRequest [sample.goBook] 0)
     = DTO_encoding sample.env (Book_ToDto sample.goBook).
Proof.
  repeat (split; [reflexivity|]).
  exact (proj1 (proj2 (proj2 (Read_found sample.env fixtures.goRequest [sample.goBook] 0
                                _ sample.goBook [sample.goBook]
                                eq_refl eq_refl eq_refl)))).
Defined.

(** *** What no handler ever does *)

(** X8.  Whatever the request, the libraries, the response writer and the
    repository do, each of the five handlers calls the repository at most
    once and calls [WriteHeader] at most once.  Create, Update and Delete
    never call it after they have written to the body; List and Read do so
    only when a write of theirs has failed. *)
Theorem one_repository_call_one_header env r st n :
  (forall h,
     In h [List env; Create env; Read env; Update env; Delete env] ->
     (Datatypes.length (repositoryCalls (serve env h r st n)) <= 1)%nat
     /\ (Datatypes.length (headerCalls (serve env h r st n)) <= 1)%nat
     /\ (headersFirst (serve env h r st n) = false ->
         exists b err, In (Write b) (serve env h r st n) /\ w_Write env b = Some err))
  /\ (forall h,
        In h [Create env; Update env; Delete env] ->
        headersFirst (serve env h r st n) = true).
Proof.
  split.
  - intros h [<- | [<- | [<- | [<- | [<- | []]]]]]; run_world; unfold Encoder_bytes;
      cbn [json_Marshal]; split_run;
      (split; [cbn; lia|]); (split; [cbn; lia|]);
      cbn; intros H; try discriminate H;
      match goal with
      | HW : w_Write env ?b = Some ?e |- _ =>
          exists b, e; split; [cbn; tauto | exact HW]
      end.
  - intros h [<- | [<- | [<- | []]]]; run_world; split_run; reflexivity.
Qed.

Lemma one_repository_call_one_header_witness :
  headerCalls (serve sample.env (Create sample.env) fixtures.goRequest [] 0) = [201]
  /\ headersFirst (serve sample.env (Update sample.env) fixtures.badRequest [] 0) = true
  /\ (Datatypes.length
        (repositoryCalls
           (serve fixtures.envBroken (List fixtures.envBroken) fixtures.goRequest
              [sample.goBook] 0)) <= 1)%nat.
Proof.
  split; [reflexivity|].
  destruct (one_repository_call_one_header sample.env fixtures.badRequest [] 0)
    as [_ HCUD].
  split; [exact (HCUD (Update sample.env) (or_intror (or_introl eq_refl)))|].
  exact (proj1 (proj1 (one_repository_call_one_header fixtures.envBroken
                         fixtures.goRequest [sample.goBook] 0)
                  (List fixtures.envBroken) (or_introl eq_refl))).
Defined.

(** X9.  The status codes each handler can answer with, whatever happens:
    List 200 or 500; Create 201, 422 or 500 (never 400); Read 200, 400, 404
    or 500; Update 200, 400, 404, 422 or 500; Delete 200, 400 or 404
    (never 500). *)
Theorem status_codes_of_the_handlers env r st n :
  In (http.statusCode (serve env (List env) r st n)) [200; 500]
  /\ In (http.statusCode (serve env (Create env) r st n)) [201; 422; 500]
  /\ In (http.statusCode (serve env (Read env) r st n)) [200; 400; 404; 500]
  /\ In (http.statusCode (serve env (Update env) r st n)) [200; 400; 404; 422; 500]
  /\ In (http.statusCode (serve env (Delete env) r st n)) [200; 400; 404].
Proof.
  repeat split; run_world; unfold Encoder_bytes; cbn [json_Marshal]; split_run;
    cbn [http.statusCode In];
    unfold http.StatusOK, http.StatusCreated, http.StatusBadRequest,
      http.StatusNotFound, http.StatusUnprocessableEntity,
      http.StatusInternalServerError; tauto.
Qed.

(** *** The mapper *)

(** X10.  [Books.ToDto] gives a slice as long as the books, with no nil in
    it, whose entry at each index is the DTO of the book at that index. *)
Theorem Books_ToDto_indexwise bs :
  Datatypes.length (Books_ToDto bs) = Datatypes.length bs
  /\ ~ In None (Books_ToDto bs)
  /\ forall i,
       nth_error (Books_ToDto bs) i
       = option_map (fun b => Some (Book_ToDto b)) (nth_error bs i).
Proof.
  rewrite Books_ToDto_map. split; [apply length_map|]. split.
  - intros H. apply in_map_iff in H. destruct H as (b & Hb & _). discriminate Hb.
  - intros i. apply nth_error_map.
Qed.

(** X11.  The published date of the model of any form is a date and
    nothing more: midnight UTC of some day, with no nanoseconds, whether
    the form's date parsed or not. *)
Theorem Form_ToModel_date_is_midnight f :
  time.nsec (Book_PublishedDate (Form_ToModel f)) = 0
  /\ time.offset (Book_PublishedDate (Form_ToModel f)) = 0
  /\ time.sec (Book_PublishedDate (Form_ToModel f)) mod time.secondsPerDay = 0.
Proof.
  rewrite Form_ToModel_fields. cbn [Book_PublishedDate].
  destruct (time.Parse time.layout_2006_01_02 (Form_PublishedDate f)) as [t [err|]] eqn:E;
    cbn [fst].
  - rewrite (Parse_error_zero _ _ _ E). repeat split.
  - apply Parse_ok_inv in E.
    destruct E as (a & b & c & d & e & g & h & i & _ & _ & _ & _ & _ & _ & _ & _ & _
                   & _ & _ & ->).
    unfold time.Date. cbv zeta. cbn [time.nsec time.offset time.sec].
    repeat split. apply Z.mod_mul. discriminate.
Qed.

(** X12.  The date a client reads back: the DTO of the model of a form
    shows the form's date when that is a date of the calendar written
    YYYY-MM-DD, and ["0001-01-01"] for every other string; either way it
    is a date of the calendar. *)
Theorem ToDto_ToModel_date_shown f :
  DTO_PublishedDate (Book_ToDto (Form_ToModel f))
  = (if calendar.isDate (Form_PublishedDate f) then Form_PublishedDate f
     else "0001-01-01")
  /\ calendar.isDate (DTO_PublishedDate (Book_ToDto (Form_ToModel f))) = true.
Proof.
  assert (H : DTO_PublishedDate (Book_ToDto (Form_ToModel f))
              = if calendar.isDate (Form_PublishedDate f) then Form_PublishedDate f
                else "0001-01-01").
  { destruct (calendar.isDate (Form_PublishedDate f)) eqn:E.
    - apply ToDto_ToModel_date. exact E.
    - rewrite Form_ToModel_fields.
      cbn [Book_ToDto DTO_PublishedDate Book_PublishedDate].
      destruct (time.Parse time.layout_2006_01_02 (Form_PublishedDate f))
        as [t [err|]] eqn:EP; cbn [fst].
      + rewrite (Parse_error_zero _ _ _ EP). reflexivity.
      + assert (HP : snd (time.Parse time.layout_2006_01_02 (Form_PublishedDate f)) = None)
          by (rewrite EP; reflexivity).
        apply Parse_ok_isDate in HP. rewrite HP in E. discriminate E. }
  split; [exact H|]. rewrite H.
  destruct (calendar.isDate (Form_PublishedDate f)) eqn:E; [exact E | reflexivity].
Qed.

(** X13.  Sending back what was read changes nothing: the form made of the
    fields of the DTO of a form's model has the same model as the form
    itself, for every form (the date is normalised once and stays so). *)
Theorem ToModel_of_what_was_read f :
  Form_ToModel (DTO_asForm (Book_ToDto (Form_ToModel f))) = Form_ToModel f.
Proof.
  assert (Hdate : fst (time.Parse time.layout_2006_01_02
                         (DTO_PublishedDate (Book_ToDto (Form_ToModel f))))
                  = fst (time.Parse time.layout_2006_01_02 (Form_PublishedDate f))).
  { destruct (calendar.isDate (Form_PublishedDate f)) eqn:E.
    - rewrite (ToDto_ToModel_date f E). reflexivity.
    - rewrite (Form_ToModel_fields f).
      cbn [Book_ToDto DTO_PublishedDate Book_PublishedDate].
      destruct (time.Parse time.layout_2006_01_02 (Form_PublishedDate f))
        as [t [err|]] eqn:EP; cbn [fst].
      + rewrite (Parse_error_zero _ _ _ EP). reflexivity.
      + assert (HP : snd (time.Parse time.layout_2006_01_02 (Form_PublishedDate f)) = None)
          by (rewrite EP; reflexivity).
        apply Parse_ok_isDate in HP. rewrite HP in E. discriminate E. }
  rewrite (Form_ToModel_fields (DTO_asForm _)).
  cbn [DTO_asForm Form_Title Form_Author Form_PublishedDate Form_ImageURL
       Form_Description].
  rewrite Hdate. rewrite (Form_ToModel_fields f) at 5.
  rewrite (Form_ToModel_fields f).
  reflexivity.
Qed.

(** *** The rules of the form *)

Lemma isEmpty_false s : validator.isEmpty s = false <-> s <> "".
Proof.
  destruct s; cbn [validator.isEmpty]; split; intros H; try discriminate;
    try reflexivity. now destruct H.
Qed.

Lemma app_nil_iff {A : Type} (l l' : list A) :
  (l ++ l')%list = [] <-> l = [] /\ l' = [].
Proof.
  split; [apply app_eq_nil | intros [-> ->]; reflexivity].
Qed.

Lemma traverseField_shape wf fld tags s :
  validator.traverseField wf fld tags s = []
  \/ exists t, validator.traverseField wf fld tags s = [validator.mkFieldError fld t].
Proof.
  induction tags as [|t tags IH]; cbn [validator.traverseField].
  - now left.
  - destruct (validator.holds wf t s); [exact IH | right; now exists t].
Qed.

Lemma traverseField_first wf fld tags s fe :
  In fe (validator.traverseField wf fld tags s) ->
  exists pre post,
    tags = (pre ++ validator.FailedTag fe :: post)%list
    /\ forallb (fun t => validator.holds wf t s) pre = true
    /\ validator.holds wf (validator.FailedTag fe) s = false.
Proof.
  induction tags as [|t tags IH]; cbn [validator.traverseField]; intros H.
  - destruct H.
  - destruct (validator.holds wf t s) eqn:E.
    + destruct (IH H) as (pre & post & -> & Hpre & Hf).
      exists (t :: pre), post. cbn [forallb app]. rewrite E, Hpre. now repeat split.
    + destruct H as [<- | []]. exists [], tags. now repeat split.
Qed.

(** X14.  The forms that validate: a title that is not empty and has at
    most 255 runes; an author that is not empty, is made of letters and
    spaces and has at most 255 runes; a published date that is a date of
    the calendar written YYYY-MM-DD; an image URL that is not empty and is
    a well-formed URL.  The description is free. *)
Theorem valid_form_iff env f :
  validator_Struct env f = [] <->
  (Form_Title f <> "" /\ utf8.RuneCountInString (Form_Title f) <= 255)
  /\ (Form_Author f <> ""
      /\ validator.isAlphaSpace (Form_Author f) = true
      /\ utf8.RuneCountInString (Form_Author f) <= 255)
  /\ calendar.isDate (Form_PublishedDate f) = true
  /\ (Form_ImageURL f <> "" /\ wellFormedURL env (Form_ImageURL f) = true).
Proof.
  unfold validator_Struct. rewrite Struct_fields.
  rewrite !app_nil_iff, !traverseField_nil.
  cbn [validator.tagsOf validator.FormTags find validator.FormField_eqb fst snd
       forallb validator.holds].
  rewrite !andb_true_iff, !negb_true_iff, !isEmpty_false, !Z.leb_le.
  rewrite <- Parse_ok_isDate. unfold validator.isURL.
  split.
  - intros ((HT1 & HT2 & _) & (HA1 & HA2 & HA3 & _) & (HD1 & HD2 & _) & HU & _).
    repeat split; try assumption.
    + destruct (snd (time.Parse time.layout_2006_01_02 (Form_PublishedDate f)));
        [discriminate HD2 | reflexivity].
    + intros E. rewrite E in HU. discriminate HU.
    + destruct (Form_ImageURL f); [discriminate HU | exact HU].
  - intros ((HT1 & HT2) & (HA1 & HA2 & HA3) & HD & HU1 & HU2).
    repeat split; try assumption.
    + intros E. rewrite E in HD. discriminate HD.
    + rewrite HD. reflexivity.
    + destruct (Form_ImageURL f); [now destruct HU1 | exact HU2].
Qed.

(** X15.  What validation reports: each field at most once and in the
    order of the declaration, never the description; and for a reported
    field the tag is the first of its tags that fails on the value, the
    tags before it holding (an empty title or author is reported as
    required, not under a later tag). *)
Theorem validation_errors_shape env f :
  ascending (map (fun fe => fieldRank (validator.Field fe)) (validator_Struct env f)) = true
  /\ forall fe,
       In fe (validator_Struct env f) ->
       validator.Field fe <> validator.Description
       /\ exists pre post,
            validator.tagsOf (validator.Field fe)
            = (pre ++ validator.FailedTag fe :: post)%list
            /\ forallb (fun t => validator.holds (wellFormedURL env) t
                                   (validator.fieldValue f (validator.Field fe))) pre = true
            /\ validator.holds (wellFormedURL env) (validator.FailedTag fe)
                 (validator.fieldValue f (validator.Field fe)) = false.
Proof.
  unfold validator_Struct. rewrite Struct_fields. split.
  - destruct (traverseField_shape (wellFormedURL env) validator.Title
                (validator.tagsOf validator.Title) (Form_Title f)) as [-> | [t1 ->]];
    destruct (traverseField_shape (wellFormedURL env) validator.Author
                (validator.tagsOf validator.Author) (Form_Author f)) as [-> | [t2 ->]];
    destruct (traverseField_shape (wellFormedURL env) validator.PublishedDate
                (validator.tagsOf validator.PublishedDate) (Form_PublishedDate f))
      as [-> | [t3 ->]];
    destruct (traverseField_shape (wellFormedURL env) validator.ImageURL
                (validator.tagsOf validator.ImageURL) (Form_ImageURL f)) as [-> | [t4 ->]];
    reflexivity.
  - intros fe H. rewrite !in_app_iff in H.
    destruct H as [H | [H | [H | H]]];
      pose proof (traverseField_In _ _ _ _ _ H) as (HF & _);
      apply traverseField_first in H; rewrite HF;
      (split; [discriminate | exact H]).
Qed.
